(** * WeighJS: the value-size estimator of src/weigh/weigh.ts

    A shallow embedding of the [Profiler] class, of its size strategies and
    of the detailed report builder, with the properties of the
    specification stated over it.

    JavaScript values are modelled as they are observed by the estimator:
    primitives carry their payload, composite values are references into a
    heap of objects (so aliasing and cycles are expressible), and every
    object records its built-in shape, the text its [toString()] yields and
    its own enumerable string-keyed properties in [for ... in] order.
    Sizes are integers; recursion depth is bounded by a fuel argument that
    plays the role of the call stack. *)

From Stdlib Require Import ZArith List Ascii String Bool Arith Lia DecimalString.
From Stdlib Require Import DecimalNat DecimalFacts FunctionalExtensionality.
From stdpp Require Import base decidable gmap.
Import ListNotations.

Local Open Scope Z_scope.
Local Open Scope string_scope.

(** ** The size unit table (src/weigh/enum.ts) *)

Module eMemorySize.
Definition BOOLEAN : Z := 4.
Definition NUMBER : Z := 8.
Definition BIGINT : Z := 8.
Definition STRING_CHAR : Z := 2.
Definition DATE : Z := 8.
Definition REFERENCE : Z := 8.
Definition UNDEFINED : Z := 1.
Definition NULL : Z := 8.
End eMemorySize.

(** Modelled from the spec: the per-shape base overheads [DEFAULT_OBJECT],
    [DEFAULT_ARRAY], [DEFAULT_MAP], [DEFAULT_SET], [DEFAULT_FUNCTION],
    [DEFAULT_REGEXP] and [DEFAULT_WEAKREF] are read by weigh.ts but the enum
    that is available does not declare them.  The specification names them
    ("per-shape base overheads for generic object, array, map, set, regular
    expression, weak-reference, default callable") without giving values, so
    they are kept abstract in a table the whole development is parametric
    in. *)
Record Overheads : Type := mkOverheads {
  DEFAULT_OBJECT : Z;
  DEFAULT_ARRAY : Z;
  DEFAULT_MAP : Z;
  DEFAULT_SET : Z;
  DEFAULT_FUNCTION : Z;
  DEFAULT_REGEXP : Z;
  DEFAULT_WEAKREF : Z
}.

(** Modelled from the spec: what the specification says of the missing
    constants.  Every cost is "a non-negative integer byte cost", and the
    base overheads of the four containers are "(non-zero), not zero". *)
Definition overheads_ok (ov : Overheads) : Prop :=
  0 < DEFAULT_OBJECT ov /\ 0 < DEFAULT_ARRAY ov /\
  0 < DEFAULT_MAP ov /\ 0 < DEFAULT_SET ov /\
  0 <= DEFAULT_FUNCTION ov /\ 0 <= DEFAULT_REGEXP ov /\
  0 <= DEFAULT_WEAKREF ov.

(** ** Measured values *)

Definition addr := nat.

(** Primitives and references.  A number is represented by an integer: the
    estimator only looks at [typeof] and at the decimal rendering of a
    number, never at its magnitude.  A character of a [string] stands for
    one UTF-16 code unit. *)
Inductive Value : Type :=
  | VNull
  | VUndefined
  | VBoolean (b : bool)
  | VNumber (n : Z)
  | VBigInt (n : Z)
  | VString (s : string)
  | VSymbol (description : option string)
  | VRef (a : addr).

(** The constructors listed by [TypedArraySizeStrategy]. *)
Inductive TypedCtor : Type :=
  | Int8Array | Uint8Array | Uint8ClampedArray
  | Int16Array | Uint16Array
  | Int32Array | Uint32Array
  | Float32Array | Float64Array
  | BigInt64Array | BigUint64Array.

Definition Props := list (string * Value).

(** The built-in shape of an object, with the payload the estimator reads.
    An array lists its slots ([None] is a hole); its index properties are
    derived from the slots, [props] holds the remaining ones. *)
Inductive Shape : Type :=
  | SObject
  | SArray (items : list (option Value))
  | SMap (entries : list (Value * Value))
  | SSet (members : list Value)
  | SBuffer (bytes : list Z)
  | STypedArray (ctor : TypedCtor) (elements : list Z)
  | SArrayBuffer (byteLength : nat)
  | SDataView (byteLength : nat)
  | SDate
  | SRegExp (source flags : string)
  | SWeakRef
  | SURL
  | SFunction (prototype : Value).

Record Obj : Type := mkObj {
  shape : Shape;
  text : string;      (* what [toString()] returns (derived for a regexp) *)
  props : Props       (* own enumerable string-keyed properties *)
}.

(** The heap is total: every address holds an object.  The estimator never
    writes to it. *)
Definition Heap := addr -> Obj.

(** ** Size reports (src/weigh/types.ts, [IMemoryReport]) *)

#[warnings="-register-all"]
Inductive IMemoryReport : Type :=
  mkReport (type : string) (size : Z)
           (children : option (list (string * IMemoryReport))).

Definition type (r : IMemoryReport) : string :=
  match r with mkReport t _ _ => t end.
Definition size (r : IMemoryReport) : Z :=
  match r with mkReport _ s _ => s end.
Definition children (r : IMemoryReport) : option (list (string * IMemoryReport)) :=
  match r with mkReport _ _ c => c end.

(** [children[key] = child] on a JavaScript object: an existing key keeps
    its place and takes the new value, a new key is appended.  (The
    runtime lists integer-like keys first; no property below depends on
    the order of the entries.) *)
Fixpoint assign {A : Type} (key : string) (x : A) (o : list (string * A))
  : list (string * A) :=
  match o with
  | [] => [(key, x)]
  | (k, y) :: o' =>
      if String.eqb k key then (k, x) :: o' else (k, y) :: assign key x o'
  end.

(** The sum of the sizes of the entries of a children mapping. *)
Definition children_total (r : IMemoryReport) : Z :=
  match children r with
  | None => 0
  | Some cs => fold_right (fun kc acc => size (snd kc) + acc) 0 cs
  end.

(** ** What the host runtime tells about a value *)

Inductive JSType : Type :=
  | TUndefined | TObject | TBoolean | TNumber | TBigInt | TString | TSymbol
  | TFunction.

(** Decimal rendering of an array index and of an integer. *)
Definition dec (i : nat) : string := NilZero.string_of_uint (Nat.to_uint i).
Definition decZ (n : Z) : string := NilZero.string_of_int (Z.to_int n).

Definition len (s : string) : Z := Z.of_nat (String.length s).

(** The test of the regular expression [/^https?:/]. *)
Definition matches_http_scheme (s : string) : bool :=
  String.prefix "http:" s || String.prefix "https:" s.

Definition BYTES_PER_ELEMENT (c : TypedCtor) : nat :=
  match c with
  | Int8Array | Uint8Array | Uint8ClampedArray => 1
  | Int16Array | Uint16Array => 2
  | Int32Array | Uint32Array | Float32Array => 4
  | Float64Array | BigInt64Array | BigUint64Array => 8
  end%nat.

Definition ctorName (c : TypedCtor) : string :=
  match c with
  | Int8Array => "int8array" | Uint8Array => "uint8array"
  | Uint8ClampedArray => "uint8clampedarray"
  | Int16Array => "int16array" | Uint16Array => "uint16array"
  | Int32Array => "int32array" | Uint32Array => "uint32array"
  | Float32Array => "float32array" | Float64Array => "float64array"
  | BigInt64Array => "bigint64array" | BigUint64Array => "biguint64array"
  end.

(** An element read from a typed array is a number, or a bigint for the two
    64-bit integer views. *)
Definition element (c : TypedCtor) (n : Z) : Value :=
  match c with
  | BigInt64Array | BigUint64Array => VBigInt n
  | _ => VNumber n
  end.

(** Index properties, as [for ... in] reports them: one per slot that is
    not a hole, keyed by the decimal index. *)
Fixpoint indexProps (i : nat) (items : list (option Value)) : Props :=
  match items with
  | [] => []
  | Some v :: rest => (dec i, v) :: indexProps (S i) rest
  | None :: rest => indexProps (S i) rest
  end.

(** [for (const key in value) if (hasOwnProperty(value, key))]: the own
    enumerable string keys with their values, integer keys first. *)
Definition forIn (o : Obj) : Props :=
  match shape o with
  | SArray items => (indexProps 0 items ++ props o)%list
  | STypedArray c els =>
      (indexProps 0 (map (fun n => Some (element c n)) els) ++ props o)%list
  | SBuffer bytes =>
      (indexProps 0 (map (fun n => Some (VNumber n)) bytes) ++ props o)%list
  | _ => props o
  end.

(** [for (const item of value)] on an array: a hole reads as [undefined]. *)
Definition iterate (items : list (option Value)) : list Value :=
  map (fun slot => match slot with Some v => v | None => VUndefined end) items.

(** [forEach] and [reduce] skip the holes but keep the indices. *)
Fixpoint entriesOf (i : nat) (items : list (option Value)) : list (nat * Value) :=
  match items with
  | [] => []
  | Some v :: rest => (i, v) :: entriesOf (S i) rest
  | None :: rest => entriesOf (S i) rest
  end.

Fixpoint lookupProp (key : string) (ps : Props) : option Value :=
  match ps with
  | [] => None
  | (k, v) :: rest => if String.eqb k key then Some v else lookupProp key rest
  end.

Definition toStringObj (o : Obj) : string :=
  match shape o with
  | SRegExp source flags => "/" ++ source ++ "/" ++ flags
  | _ => text o
  end.

(** [value.byteLength] of the binary shapes, [value.length] of a buffer. *)
Definition byteLength (o : Obj) : Z :=
  match shape o with
  | SBuffer bytes => Z.of_nat (List.length bytes)
  | STypedArray c els => Z.of_nat (List.length els * BYTES_PER_ELEMENT c)
  | SArrayBuffer n | SDataView n => Z.of_nat n
  | _ => 0
  end.

(** [Object.prototype.toString.call(value).slice(8, -1).toLowerCase()]. *)
Definition shapeTag (s : Shape) : string :=
  match s with
  | SObject => "object" | SArray _ => "array" | SMap _ => "map"
  | SSet _ => "set" | SBuffer _ => "uint8array"
  | STypedArray c _ => ctorName c
  | SArrayBuffer _ => "arraybuffer" | SDataView _ => "dataview"
  | SDate => "date" | SRegExp _ _ => "regexp" | SWeakRef => "weakref"
  | SURL => "url" | SFunction _ => "function"
  end.

Section Runtime.
Variable h : Heap.

Definition typeof (v : Value) : JSType :=
  match v with
  | VNull => TObject
  | VUndefined => TUndefined
  | VBoolean _ => TBoolean
  | VNumber _ => TNumber
  | VBigInt _ => TBigInt
  | VString _ => TString
  | VSymbol _ => TSymbol
  | VRef a => match shape (h a) with SFunction _ => TFunction | _ => TObject end
  end.

(** [typeof value === "object" && value !== null], with the address. *)
Definition asObject (v : Value) : option addr :=
  match v with
  | VRef a => match shape (h a) with SFunction _ => None | _ => Some a end
  | _ => None
  end.

(** [value?.toString?.()]: absent on [null] and [undefined]. *)
Definition toString (v : Value) : option string :=
  match v with
  | VNull | VUndefined => None
  | VBoolean b => Some (if b then "true" else "false")
  | VNumber n | VBigInt n => Some (decZ n)
  | VString s => Some s
  | VSymbol d => Some ("Symbol(" ++ match d with Some s => s | None => "" end ++ ")")
  | VRef a => Some (toStringObj (h a))
  end.

(** [String(value)]. *)
Definition String_ (v : Value) : string :=
  match v with
  | VNull => "null"
  | VUndefined => "undefined"
  | _ => match toString v with Some s => s | None => "" end
  end.

Definition classTag (v : Value) : string :=
  match v with
  | VNull => "null"
  | VUndefined => "undefined"
  | VBoolean _ => "boolean"
  | VNumber _ => "number"
  | VBigInt _ => "bigint"
  | VString _ => "string"
  | VSymbol _ => "symbol"
  | VRef a => shapeTag (shape (h a))
  end.

(** [fn.prototype]: an own enumerable property of that name if there is
    one, else the function's built-in prototype slot. *)
Definition prototypeOf (o : Obj) : Value :=
  match lookupProp "prototype" (props o) with
  | Some v => v
  | None => match shape o with SFunction p => p | _ => VUndefined end
  end.

(** [p && typeof p === "object"]. *)
Definition isObjectValue (p : Value) : bool :=
  match asObject p with Some _ => true | None => false end.
End Runtime.

(** ** The visitation tracker and the call stack

    A computation of the estimator reads and extends the set of visited
    composites (the [WeakSet] of the profiler) and may exhaust the call
    stack, which is the only way it can fail to return. *)

Abbreviation Visited := (gset addr).

Definition M (A : Type) : Type := Visited -> option (A * Visited).

Definition ret {A : Type} (x : A) : M A := fun vis => Some (x, vis).

Definition bind {A B : Type} (m : M A) (k : A -> M B) : M B :=
  fun vis => match m vis with
             | Some (x, vis') => k x vis'
             | None => None
             end.

Definition overflow {A : Type} : M A := fun _ => None.

Notation "'let*' x ':=' m 'in' k" := (bind m (fun x => k))
  (at level 10, x name, m at level 100, k at level 200, only parsing).

(** A loop over [xs] that updates local variables [acc]. *)
Fixpoint forEach {A S : Type} (xs : list A) (body : A -> S -> M S) (acc : S) : M S :=
  match xs with
  | [] => ret acc
  | x :: rest => let* acc' := body x acc in forEach rest body acc'
  end.

(** ** The interfaces of src/weigh/types.ts *)

Record IProfiler : Type := mkIProfiler {
  isVisited : Value -> M bool;
  markVisited : Value -> M unit;
  computeSize : Value -> M Z
}.

Record ISizeStrategy : Type := mkStrategy {
  supports : Value -> bool;
  sizeOf : Value -> IProfiler -> M Z;
  detailedSizeOf : option (Value -> IProfiler -> M IMemoryReport)
}.

(** [for (const key in value) if (own) { size += key.length * STRING_CHAR;
    size += profiler.computeSize(value[key]); }], restricted to the keys
    that pass [keep]. *)
Definition walkProps (profiler : IProfiler) (keep : string -> bool)
    (ps : Props) (size : Z) : M Z :=
  forEach ps (fun kv size =>
    if keep (fst kv) then
      let* c := computeSize profiler (snd kv) in
      ret (size + len (fst kv) * eMemorySize.STRING_CHAR + c)
    else ret size) size.

(** [for (const item of xs) size += profiler.computeSize(item)]. *)
Definition walkItems (profiler : IProfiler) (xs : list Value) (size : Z) : M Z :=
  forEach xs (fun item size =>
    let* c := computeSize profiler item in ret (size + c)) size.

Section Estimator.
Variable ov : Overheads.
Variable h : Heap.

(** *** The shape strategies *)

Definition DefaultSizeStrategy_supports (_value : Value) : bool := true.

Definition DefaultSizeStrategy_sizeOf (value : Value) (profiler : IProfiler) : M Z :=
  match value with
  | VNull => ret eMemorySize.NULL
  | VUndefined => ret eMemorySize.UNDEFINED
  | VString s => ret (len s * eMemorySize.STRING_CHAR)
  | VNumber _ => ret eMemorySize.NUMBER
  | VBoolean _ => ret eMemorySize.BOOLEAN
  | VBigInt _ => ret eMemorySize.BIGINT
  | VSymbol description =>
      ret (match description with
           | Some (String c d) => len (String c d) * eMemorySize.STRING_CHAR
           | _ => 0
           end)
  | VRef a =>
      let o := h a in
      match shape o with
      | SFunction _ =>
          ret (DEFAULT_FUNCTION ov + len (toStringObj o) * eMemorySize.STRING_CHAR)
      | sh =>
          let* seen := isVisited profiler value in
          if seen : bool then ret eMemorySize.REFERENCE else
          let* _ := markVisited profiler value in
          match sh with
          | SArray items =>
              forEach (entriesOf 0 items) (fun item sum =>
                let* c := computeSize profiler (snd item) in ret (sum + c)) 0
          | SMap entries =>
              forEach entries (fun kv size =>
                let* ck := computeSize profiler (fst kv) in
                let* cv := computeSize profiler (snd kv) in
                ret (size + (ck + cv))) (DEFAULT_MAP ov)
          | SSet members => walkItems profiler members (DEFAULT_SET ov)
          | SBuffer bytes => ret (Z.of_nat (List.length bytes))
          | SDate => ret eMemorySize.DATE
          | SRegExp _ _ => ret (len (toStringObj o) * eMemorySize.STRING_CHAR)
          | _ => walkProps profiler (fun _ => true) (forIn o) (DEFAULT_OBJECT ov)
          end
      end
  end.

Definition DefaultSizeStrategy : ISizeStrategy :=
  mkStrategy DefaultSizeStrategy_supports DefaultSizeStrategy_sizeOf None.

(** [value?.toString?.() && typeof value.toString === "function" &&
    /^https?:/.test(value.toString())] *)
Definition URLSizeStrategy_supports (value : Value) : bool :=
  match toString h value with
  | Some s => negb (String.eqb s "") && matches_http_scheme s
  | None => false
  end.

Definition URLSizeStrategy_sizeOf (value : Value) (_profiler : IProfiler) : M Z :=
  ret (DEFAULT_OBJECT ov
       + len (default "" (toString h value)) * eMemorySize.STRING_CHAR).

Definition URLSizeStrategy : ISizeStrategy :=
  mkStrategy URLSizeStrategy_supports URLSizeStrategy_sizeOf None.

(** A [Buffer] is an instance of [Uint8Array]. *)
Definition TypedArraySizeStrategy_supports (value : Value) : bool :=
  match value with
  | VRef a => match shape (h a) with
              | STypedArray _ _ | SBuffer _ => true
              | _ => false
              end
  | _ => false
  end.

Definition byteLengthOf (value : Value) : Z :=
  match value with VRef a => byteLength (h a) | _ => 0 end.

Definition TypedArraySizeStrategy_sizeOf (value : Value) (_profiler : IProfiler) : M Z :=
  ret (byteLengthOf value).

Definition TypedArraySizeStrategy : ISizeStrategy :=
  mkStrategy TypedArraySizeStrategy_supports TypedArraySizeStrategy_sizeOf None.

Definition ArrayBufferStrategy_supports (value : Value) : bool :=
  match value with
  | VRef a => match shape (h a) with SArrayBuffer _ => true | _ => false end
  | _ => false
  end.

Definition ArrayBufferStrategy : ISizeStrategy :=
  mkStrategy ArrayBufferStrategy_supports
             (fun value _profiler => ret (byteLengthOf value)) None.

Definition DataViewStrategy_supports (value : Value) : bool :=
  match value with
  | VRef a => match shape (h a) with SDataView _ => true | _ => false end
  | _ => false
  end.

Definition DataViewStrategy : ISizeStrategy :=
  mkStrategy DataViewStrategy_supports
             (fun value _profiler => ret (byteLengthOf value)) None.

(** The [sizeOf] of the function, regexp and array strategies reads
    fields that only their own shape has; [computeSize] calls it on values
    their [supports] accepts, and the remaining branches, which return 0
    below, are never reached through the dispatcher. *)

Definition FunctionSizeStrategy_supports (value : Value) : bool :=
  match typeof h value with TFunction => true | _ => false end.

Definition FunctionSizeStrategy_sizeOf (fn : Value) (profiler : IProfiler) : M Z :=
  match fn with
  | VRef a =>
      let o := h a in
      let size := DEFAULT_FUNCTION ov in
      let size := size + len (toStringObj o) * eMemorySize.STRING_CHAR in
      let* size := walkProps profiler (fun _ => true) (forIn o) size in
      if isObjectValue h (prototypeOf o)
      then let* c := computeSize profiler (prototypeOf o) in ret (size + c)
      else ret size
  | _ => ret 0
  end.

Definition FunctionSizeStrategy : ISizeStrategy :=
  mkStrategy FunctionSizeStrategy_supports FunctionSizeStrategy_sizeOf None.

Definition WeakRefStrategy_supports (value : Value) : bool :=
  match value with
  | VRef a => match shape (h a) with SWeakRef => true | _ => false end
  | _ => false
  end.

Definition WeakRefStrategy_sizeOf (_value : Value) (_profiler : IProfiler) : M Z :=
  ret (eMemorySize.REFERENCE + DEFAULT_WEAKREF ov).

Definition WeakRefStrategy : ISizeStrategy :=
  mkStrategy WeakRefStrategy_supports WeakRefStrategy_sizeOf None.

Definition RegExpStrategy_supports (value : Value) : bool :=
  match value with
  | VRef a => match shape (h a) with SRegExp _ _ => true | _ => false end
  | _ => false
  end.

Definition RegExpStrategy_sizeOf (value : Value) (profiler : IProfiler) : M Z :=
  match value with
  | VRef a =>
      let o := h a in
      match shape o with
      | SRegExp source flags =>
          let size := DEFAULT_REGEXP ov in
          let size := size + len source * eMemorySize.STRING_CHAR in
          let size := size + len flags * eMemorySize.STRING_CHAR in
          let* size :=
            walkProps profiler
              (fun key => negb (String.eqb key "source")
                          && negb (String.eqb key "flags")
                          && negb (String.eqb key "lastIndex"))
              (forIn o) size in
          ret (size + eMemorySize.NUMBER)
      | _ => ret 0
      end
  | _ => ret 0
  end.

Definition RegExpStrategy : ISizeStrategy :=
  mkStrategy RegExpStrategy_supports RegExpStrategy_sizeOf None.

Definition ArrayStrategy_supports (value : Value) : bool :=
  match value with
  | VRef a => match shape (h a) with SArray _ => true | _ => false end
  | _ => false
  end.

Definition ArrayStrategy_sizeOf (value : Value) (profiler : IProfiler) : M Z :=
  match value with
  | VRef a =>
      let o := h a in
      match shape o with
      | SArray items =>
          let size := DEFAULT_ARRAY ov in
          let* size := walkItems profiler (iterate items) size in
          walkProps profiler (fun key => negb (String.eqb key "length"))
                    (forIn o) size
      | _ => ret 0
      end
  | _ => ret 0
  end.

Definition ArrayStrategy : ISizeStrategy :=
  mkStrategy ArrayStrategy_supports ArrayStrategy_sizeOf None.

(** *** The profiler *)

Definition default_strategies : list ISizeStrategy :=
  [ ArrayStrategy; RegExpStrategy; WeakRefStrategy; URLSizeStrategy;
    TypedArraySizeStrategy; ArrayBufferStrategy; DataViewStrategy;
    FunctionSizeStrategy; DefaultSizeStrategy ].

Record Profiler : Type := mkProfiler {
  visited : Visited;
  strategies : list ISizeStrategy
}.

(** [new Profiler(options)]. *)
Definition newProfiler (options : option (list ISizeStrategy)) : Profiler :=
  mkProfiler ∅ (match options with
                | Some strategies => strategies
                | None => default_strategies
                end).

Definition Profiler_isVisited (value : Value) : M bool :=
  fun vis =>
    Some (match asObject h value with
          | Some a => bool_decide (a ∈ vis)
          | None => false
          end, vis).

Definition Profiler_markVisited (value : Value) : M unit :=
  fun vis =>
    Some (tt, match asObject h value with
              | Some a => {[a]} ∪ vis
              | None => vis
              end).

(** One unit of [fuel] is one frame of the call stack. *)
Fixpoint Profiler_computeSize (fuel : nat) (strategies : list ISizeStrategy)
    (value : Value) : M Z :=
  match fuel with
  | O => overflow
  | S fuel' =>
      match List.find (fun s => supports s value) strategies with
      | None => ret 0
      | Some strategy =>
          sizeOf strategy value
            (mkIProfiler Profiler_isVisited Profiler_markVisited
                         (Profiler_computeSize fuel' strategies))
      end
  end.

(** The result of a public method: the returned value and the profiler
    as the call leaves it, or nothing when the stack is exhausted. *)
Definition run {A : Type} (this : Profiler) (m : M A) : option (A * Profiler) :=
  match m ∅ with
  | Some (x, vis) => Some (x, mkProfiler vis (strategies this))
  | None => None
  end.

Definition Profiler_sizeOf (fuel : nat) (this : Profiler) (value : Value)
  : option (Z * Profiler) :=
  run this (Profiler_computeSize fuel (strategies this) value).

Definition Profiler_addStrategy (this : Profiler) (strategy : ISizeStrategy) : Profiler :=
  mkProfiler (visited this) (strategy :: strategies this).

(** *** The detailed report *)

(** The two local variables [size] and [children] of a composite branch. *)
Definition Acc : Type := (Z * list (string * IMemoryReport))%type.

Fixpoint _computeDetailed (fuel : nat) (value : Value) : M IMemoryReport :=
  match fuel with
  | O => overflow
  | S fuel' =>
      let type := classTag h value in
      match value with
      | VNull | VUndefined => ret (mkReport type eMemorySize.UNDEFINED None)
      | VString s => ret (mkReport "string" (len s * eMemorySize.STRING_CHAR) None)
      | VNumber _ => ret (mkReport "number" eMemorySize.NUMBER None)
      | VBoolean _ => ret (mkReport "boolean" eMemorySize.BOOLEAN None)
      | VBigInt _ => ret (mkReport "bigint" eMemorySize.BIGINT None)
      | VSymbol description =>
          ret (mkReport "symbol"
                 (match description with
                  | Some (String c d) => len (String c d) * eMemorySize.STRING_CHAR
                  | _ => 0
                  end) None)
      | VRef a =>
          let o := h a in
          let walk (ps : Props) (acc : Acc) : M Acc :=
            forEach ps (fun kv (acc : Acc) =>
              let* child := _computeDetailed fuel' (snd kv) in
              ret (fst acc + (len (fst kv) * eMemorySize.STRING_CHAR + size child),
                   assign (fst kv) child (snd acc))) acc in
          match shape o with
          | SFunction _ =>
              let* seen := Profiler_isVisited value in
              if seen : bool then ret (mkReport "function" eMemorySize.REFERENCE None) else
              let* _ := Profiler_markVisited value in
              let* acc := walk (forIn o)
                            (len (toStringObj o) * eMemorySize.STRING_CHAR, []) in
              if isObjectValue h (prototypeOf o) then
                let* proto := _computeDetailed fuel' (prototypeOf o) in
                ret (mkReport "function" (fst acc + size proto)
                       (Some (assign "prototype" proto (snd acc))))
              else ret (mkReport "function" (fst acc) (Some (snd acc)))
          | sh =>
              let* seen := Profiler_isVisited value in
              if seen : bool then ret (mkReport type eMemorySize.REFERENCE None) else
              let* _ := Profiler_markVisited value in
              match sh with
              | SArray items =>
                  let* acc :=
                    forEach (entriesOf 0 items) (fun entry (acc : Acc) =>
                      let* detail := _computeDetailed fuel' (snd entry) in
                      ret (fst acc + size detail,
                           assign (dec (fst entry)) detail (snd acc))) (0, []) in
                  ret (mkReport "array" (fst acc) (Some (snd acc)))
              | SMap entries =>
                  let* acc :=
                    forEach entries (fun kv (acc : Acc) =>
                      let* keyDetail := _computeDetailed fuel' (fst kv) in
                      let* valDetail := _computeDetailed fuel' (snd kv) in
                      let keyStr := "key:" ++ String_ h (fst kv) in
                      let valStr := "val:" ++ String_ h (fst kv) in
                      ret (fst acc + (size keyDetail + size valDetail),
                           assign valStr valDetail
                             (assign keyStr keyDetail (snd acc)))) (0, []) in
                  ret (mkReport "map" (fst acc) (Some (snd acc)))
              | SSet members =>
                  let* acc :=
                    forEach (entriesOf 0 (map Some members)) (fun entry (acc : Acc) =>
                      let* detail := _computeDetailed fuel' (snd entry) in
                      ret (fst acc + size detail,
                           assign (dec (fst entry)) detail (snd acc))) (0, []) in
                  ret (mkReport "set" (fst acc) (Some (snd acc)))
              | SBuffer bytes =>
                  ret (mkReport "buffer" (Z.of_nat (List.length bytes)) None)
              | SDate => ret (mkReport "date" eMemorySize.DATE None)
              | SRegExp _ _ =>
                  ret (mkReport "regexp"
                         (len (toStringObj o) * eMemorySize.STRING_CHAR) None)
              | _ =>
                  let* acc := walk (forIn o) (0, []) in
                  ret (mkReport "object" (fst acc) (Some (snd acc)))
              end
          end
      end
  end.

Definition Profiler_computeDetailedSize (fuel : nat) (this : Profiler)
    (value : Value) : option (IMemoryReport * Profiler) :=
  run this (_computeDetailed fuel value).
End Estimator.

(** *** [Profiler.formatSize]

    [bytes] is an integer; a quotient by a power of 1024 is then exact, and
    [toFixed(2)] rounds it to the nearest hundredth, a tie going up in
    magnitude. *)

Module eMemoryUnit.
Definition BYTE : string := "B".
Definition KILOBYTE : string := "KB".
Definition MEGABYTE : string := "MB".
Definition GIGABYTE : string := "GB".
End eMemoryUnit.

Definition twoDigits (n : Z) : string :=
  if (n <? 10)%Z then "0" ++ decZ n else decZ n.

(** [(num / den).toFixed(2)] for an integer [num] and a positive [den]. *)
Definition toFixed2 (num den : Z) : string :=
  let n := (200 * Z.abs num + den) / (2 * den) in
  (if (num <? 0)%Z then "-" else "") ++ decZ (n / 100) ++ "." ++ twoDigits (n mod 100).

Definition formatSize (bytes : Z) (unit : Value) : string :=
  let unit := match unit with
              | VUndefined => VString eMemoryUnit.BYTE
              | _ => unit
              end in
  match unit with
  | VString u =>
      if String.eqb u eMemoryUnit.BYTE then decZ bytes ++ " B"
      else if String.eqb u eMemoryUnit.KILOBYTE then toFixed2 bytes 1024 ++ " KB"
      else if String.eqb u eMemoryUnit.MEGABYTE then toFixed2 bytes (1024 ^ 2) ++ " MB"
      else if String.eqb u eMemoryUnit.GIGABYTE then toFixed2 bytes (1024 ^ 3) ++ " GB"
      else decZ bytes ++ " B"
  | _ => decZ bytes ++ " B"
  end.

(** ** Observed results and sample inputs *)

(** The number returned by [new Profiler().sizeOf(value)]. *)
Definition sizeOf_default (ov : Overheads) (h : Heap) (fuel : nat) (value : Value)
  : option Z :=
  fst <$> Profiler_sizeOf h fuel (newProfiler ov h None) value.

(** [computeDetailedSize(value).size] followed by [sizeOf(value)] on the
    same default profiler. *)
Definition detailed_then_sizeOf (ov : Overheads) (h : Heap) (fuel : nat)
    (value : Value) : option (Z * Z) :=
  match Profiler_computeDetailedSize h fuel (newProfiler ov h None) value with
  | Some (report, this) =>
      match Profiler_sizeOf h fuel this value with
      | Some (n, _) => Some (size report, n)
      | None => None
      end
  | None => None
  end.

(** The report returned by [new Profiler().computeDetailedSize(value)]. *)
Definition detailed_default (ov : Overheads) (h : Heap) (fuel : nat) (value : Value)
  : option IMemoryReport :=
  fst <$> Profiler_computeDetailedSize h fuel (newProfiler ov h None) value.

(** The values on which the detailed path and the default strategies apply
    the same rule: the primitives other than [null] and other than a string
    the URL predicate accepts, dates and buffers. *)
Definition same_rule_value (h : Heap) (value : Value) : Prop :=
  match value with
  | VNull => False
  | VString s => matches_http_scheme s = false
  | VRef a =>
      match shape (h a) with
      | SDate | SBuffer _ => matches_http_scheme (text (h a)) = false
      | _ => False
      end
  | _ => True
  end.

(** The array rule in the words of the specification: the base overhead,
    the cost of every element, and key and value of the own enumerable
    properties that are neither indices nor [length]. *)
Definition ArrayStrategy_sizeOf_spec (ov : Overheads) (h : Heap) (value : Value)
    (profiler : IProfiler) : M Z :=
  match value with
  | VRef a =>
      match shape (h a) with
      | SArray items =>
          let* size := walkItems profiler (iterate items) (DEFAULT_ARRAY ov) in
          walkProps profiler (fun key => negb (String.eqb key "length"))
                    (props (h a)) size
      | _ => ret 0
      end
  | _ => ret 0
  end.

(** [sizeOf] of an array if the array rule were the one above. *)
Definition sizeOf_array_spec (ov : Overheads) (h : Heap) (fuel : nat) (value : Value)
  : option Z :=
  match fuel with
  | O => None
  | S fuel' =>
      fst <$> ArrayStrategy_sizeOf_spec ov h value
                (mkIProfiler (Profiler_isVisited h) (Profiler_markVisited h)
                   (Profiler_computeSize h fuel' (default_strategies ov h))) ∅
  end.

(** A table of overheads to evaluate the estimator on concrete inputs with.
    Nothing below depends on the particular numbers. *)
Definition sample_overheads : Overheads := mkOverheads 16 24 32 40 48 56 64.

Definition plainObject (ps : Props) : Obj := mkObj SObject "[object Object]" ps.

(** [a = {}; a.self = a] at address 0; [b = []; b.push(b)] at 1; [[true]]
    at 2; [new Map([[1, true], ["1", false]])] at 3; [new Int8Array(1)] at
    4; [f = () => 1; f.self = f] at 5; [new Map([[1, true], [2, false]])]
    at 6; [[]] at 7; [new Map()] at 8; [new Set()] at 9; [g = () => 2] at
    10; [{ a: g, b: g }] at 11; every other address holds [{}]. *)
Definition sample_heap : Heap := fun a =>
  match a with
  | 0 => plainObject [("self", VRef 0)]
  | 1 => mkObj (SArray [Some (VRef 1)]) "" []
  | 2 => mkObj (SArray [Some (VBoolean true)]) "true" []
  | 3 => mkObj (SMap [(VNumber 1%Z, VBoolean true); (VString "1", VBoolean false)])
               "[object Map]" []
  | 4 => mkObj (STypedArray Int8Array [0%Z]) "0" []
  | 5 => mkObj (SFunction VUndefined) "() => 1" [("self", VRef 5)]
  | 6 => mkObj (SMap [(VNumber 1%Z, VBoolean true); (VNumber 2%Z, VBoolean false)])
               "[object Map]" []
  | 7 => mkObj (SArray []) "" []
  | 8 => mkObj (SMap []) "[object Map]" []
  | 9 => mkObj (SSet []) "[object Set]" []
  | 10 => mkObj (SFunction VUndefined) "() => 2" []
  | 11 => plainObject [("a", VRef 10); ("b", VRef 10)]
  | _ => plainObject []
  end%nat.

(** The units [formatSize] recognizes. *)
Definition recognized_unit (unit : Value) : Prop :=
  unit = VString eMemoryUnit.BYTE \/ unit = VString eMemoryUnit.KILOBYTE \/
  unit = VString eMemoryUnit.MEGABYTE \/ unit = VString eMemoryUnit.GIGABYTE.

(** Unfolds the [supports] predicates of the default strategy list. *)
Ltac unfold_supports :=
  unfold default_strategies;
  cbn [List.find supports ArrayStrategy RegExpStrategy WeakRefStrategy
       URLSizeStrategy TypedArraySizeStrategy ArrayBufferStrategy
       DataViewStrategy FunctionSizeStrategy DefaultSizeStrategy];
  unfold ArrayStrategy_supports, RegExpStrategy_supports,
    WeakRefStrategy_supports, URLSizeStrategy_supports,
    TypedArraySizeStrategy_supports, ArrayBufferStrategy_supports,
    DataViewStrategy_supports, FunctionSizeStrategy_supports,
    DefaultSizeStrategy_supports;
  cbn [toString typeof]; unfold toStringObj.

Arguments Profiler_computeSize : simpl never.
Arguments Profiler_isVisited : simpl never.
Arguments Profiler_markVisited : simpl never.

(** ** Definitions for the further properties *)

(** The cost [DefaultSizeStrategy] gives a primitive ([null], [undefined]
    and the [typeof] switch). *)
Definition primitive_cost (v : Value) : Z :=
  match v with
  | VNull => eMemorySize.NULL
  | VUndefined => eMemorySize.UNDEFINED
  | VBoolean _ => eMemorySize.BOOLEAN
  | VNumber _ => eMemorySize.NUMBER
  | VBigInt _ => eMemorySize.BIGINT
  | VString s => len s * eMemorySize.STRING_CHAR
  | VSymbol (Some d) => len d * eMemorySize.STRING_CHAR
  | VSymbol None => 0
  | VRef _ => 0
  end.

(** A primitive the catch-all strategy receives: any primitive but a
    string the URL predicate accepts. *)
Definition plain_primitive (v : Value) : Prop :=
  match v with
  | VRef _ => False
  | VString s => matches_http_scheme s = false
  | _ => True
  end.

(** The objects the default list hands to the catch-all strategy, which
    tracks them: plain objects, maps, sets, dates and URL objects whose
    text carries no http scheme. *)
Definition tracked_object (o : Obj) : Prop :=
  match shape o with
  | SObject | SMap _ | SSet _ | SDate | SURL => True
  | _ => False
  end /\ matches_http_scheme (text o) = false.

Definition sum_costs (vs : list Value) : Z :=
  fold_right (fun v acc => primitive_cost v + acc) 0 vs.

Definition sum_prop_costs (ps : Props) : Z :=
  fold_right (fun kv acc =>
    len (fst kv) * eMemorySize.STRING_CHAR + primitive_cost (snd kv) + acc) 0 ps.

Definition sum_entry_costs (es : list (Value * Value)) : Z :=
  fold_right (fun kv acc =>
    primitive_cost (fst kv) + primitive_cost (snd kv) + acc) 0 es.

(** The key test of [RegExpStrategy]: every own key but [source], [flags]
    and [lastIndex]. *)
Definition regexp_key (key : string) : bool :=
  negb (String.eqb key "source") && negb (String.eqb key "flags")
  && negb (String.eqb key "lastIndex").

(** A computation only adds to the tracker, and only addresses of objects
    (values whose [typeof] is ["object"]). *)
Definition tracks_objects (h : Heap) {A : Type} (m : M A) : Prop :=
  forall (vis : Visited) (x : A) (vis' : Visited),
    m vis = Some (x, vis') ->
    vis ⊆ vis' /\
    forall b, b ∈ vis' -> b ∈ vis \/ asObject h (VRef b) = Some b.

(** The custom strategy of the README: it supports the objects that carry
    a [__mockSize] other than [undefined] and returns that property (a
    number). *)
Definition MockStrategy (h : Heap) : ISizeStrategy :=
  mkStrategy
    (fun value => match value with
                  | VRef a => match lookupProp "__mockSize" (props (h a)) with
                              | Some VUndefined | None => false
                              | Some _ => true
                              end
                  | _ => false
                  end)
    (fun value _profiler =>
       match value with
       | VRef a => match lookupProp "__mockSize" (props (h a)) with
                   | Some (VNumber n) => ret n
                   | _ => ret 0
                   end
       | _ => ret 0
       end) None.


(** The sum of the sizes of a list of labelled reports. *)
Definition total (cs : list (string * IMemoryReport)) : Z :=
  fold_right (fun kc acc => size (snd kc) + acc) 0 cs.

(** The values the detailed path recurses into from an object that is not
    a function. *)
Definition detailed_children (o : Obj) : list Value :=
  match shape o with
  | SArray items => map snd (entriesOf 0 items)
  | SMap entries => flat_map (fun kv => [fst kv; snd kv]) entries
  | SSet members => members
  | SBuffer _ | SDate | SRegExp _ _ => []
  | _ => map snd (forIn o)
  end.

(** A value is within a set of addresses when it is a primitive or a
    reference to one of them. *)
Definition within (U : Visited) (v : Value) : Prop :=
  match v with VRef b => b ∈ U | _ => True end.

(** A finite region of the heap without functions, closed under the
    references the detailed path follows. *)
Definition function_free_region (h : Heap) (U : Visited) : Prop :=
  forall a, a ∈ U ->
    typeof h (VRef a) = TObject /\ Forall (within U) (detailed_children (h a)).

(** A finite region made of tracked objects only, closed under the
    references of their properties, entries and members. *)
Definition tracked_region (h : Heap) (U : Visited) : Prop :=
  forall a, a ∈ U ->
    tracked_object (h a) /\ Forall (within U) (detailed_children (h a)).

(** More sample values: [new URL("https://a.b/")] at 0;
    [Buffer.from("http://x")] at 1; [Buffer.from("hey")] at 2;
    [new Int16Array(10)] at 3; [new ArrayBuffer(16)] at 4;
    [new DataView(new ArrayBuffer(16))] at 5; [new WeakRef({})] at 6;
    [/abc/gi] at 7; [() => 555] at 8; [function t() {}] at 9 with its
    prototype object at 10; [s = {}] at 11; [{ a: s, b: s }] at 12;
    [[s, s]] at 13; [{ name: "John", age: 30, isAdmin: false }] at 14;
    [new Map([["key", 123]])] at 15; [new Set([1, 2, 3])] at 16;
    [p = {}; q = { back: p }; p.next = q] at 17 and 18; every other
    address holds [{}]. *)
Definition sample_heap2 : Heap := fun a =>
  match a with
  | 0 => mkObj SURL "https://a.b/" []
  | 1 => mkObj (SBuffer [104; 116; 116; 112; 58; 47; 47; 120]%Z) "http://x" []
  | 2 => mkObj (SBuffer [104; 101; 121]%Z) "hey" []
  | 3 => mkObj (STypedArray Int16Array (repeat 0%Z 10)) "0,0,0,0,0,0,0,0,0,0" []
  | 4 => mkObj (SArrayBuffer 16) "[object ArrayBuffer]" []
  | 5 => mkObj (SDataView 16) "[object DataView]" []
  | 6 => mkObj SWeakRef "[object WeakRef]" []
  | 7 => mkObj (SRegExp "abc" "gi") "/abc/gi" []
  | 8 => mkObj (SFunction VUndefined) "() => 555" []
  | 9 => mkObj (SFunction (VRef 10)) "function t() {}" []
  | 10 => plainObject []
  | 11 => plainObject []
  | 12 => plainObject [("a", VRef 11); ("b", VRef 11)]
  | 13 => mkObj (SArray [Some (VRef 11); Some (VRef 11)])
                "[object Object],[object Object]" []
  | 14 => plainObject [("name", VString "John"); ("age", VNumber 30%Z);
                       ("isAdmin", VBoolean false)]
  | 15 => mkObj (SMap [(VString "key", VNumber 123%Z)]) "[object Map]" []
  | 16 => mkObj (SSet [VNumber 1%Z; VNumber 2%Z; VNumber 3%Z]) "[object Set]" []
  | 17 => plainObject [("next", VRef 18)]
  | 18 => plainObject [("back", VRef 17)]
  | _ => plainObject []
  end%nat.

(** [{ __mockSize: 99 }] at address 0, [{}] elsewhere. *)
Definition sample_heap3 : Heap := fun a =>
  match a with
  | 0 => plainObject [("__mockSize", VNumber 99%Z)]
  | _ => plainObject []
  end%nat.

(** The two objects of the cycle [p.next = q; q.back = p]. *)
Definition sample_region : Visited := {[17%nat]} ∪ {[18%nat]}.

(** The number of properties whose value is [null]. *)
Definition count_null (ps : Props) : Z :=
  fold_right (fun kv acc =>
    match snd kv with VNull => 1 + acc | _ => acc end) 0 ps.

(** ** Properties *)

(** *** The monad and the dispatcher *)

Lemma bind_run {A B : Type} (m : M A) (k : A -> M B) (vis : Visited) :
  bind m k vis = match m vis with
                 | Some (x, vis') => k x vis'
                 | None => None
                 end.
Proof. reflexivity. Qed.

Lemma computeSize_S (h : Heap) (fuel : nat) (ss : list ISizeStrategy) (v : Value) :
  Profiler_computeSize h (S fuel) ss v =
  match List.find (fun s => supports s v) ss with
  | None => ret 0
  | Some strategy =>
      sizeOf strategy v
        (mkIProfiler (Profiler_isVisited h) (Profiler_markVisited h)
                     (Profiler_computeSize h fuel ss))
  end.
Proof. reflexivity. Qed.

Lemma isVisited_object (h : Heap) (a : addr) (vis : Visited) :
  asObject h (VRef a) = Some a ->
  Profiler_isVisited h (VRef a) vis = Some (bool_decide (a ∈ vis), vis).
Proof. intros H. unfold Profiler_isVisited. now rewrite H. Qed.

Lemma markVisited_object (h : Heap) (a : addr) (vis : Visited) :
  asObject h (VRef a) = Some a ->
  Profiler_markVisited h (VRef a) vis = Some (tt, {[a]} ∪ vis).
Proof. intros H. unfold Profiler_markVisited. now rewrite H. Qed.

Lemma find_none_of_unsupported (strategies : list ISizeStrategy) (value : Value) :
  (forall s, In s strategies -> supports s value = false) ->
  List.find (fun s => supports s value) strategies = None.
Proof.
  induction strategies as [|s rest IH]; intros Hno; simpl.
  - reflexivity.
  - rewrite (Hno s (or_introl eq_refl)). apply IH.
    intros s' Hin. apply Hno. now right.
Qed.

(** C8. When no registered strategy supports a value, [computeSize] returns
    0 and leaves the visitation set as it was; it raises nothing of its
    own. *)
Theorem computeSize_no_strategy_is_zero (h : Heap) (strategies : list ISizeStrategy)
    (value : Value) (fuel : nat) (vis : Visited) :
  (forall s, In s strategies -> supports s value = false) ->
  Profiler_computeSize h (S fuel) strategies value vis = Some (0, vis).
Proof.
  intros Hno. rewrite computeSize_S.
  now rewrite (find_none_of_unsupported _ _ Hno).
Qed.

Lemma computeSize_no_strategy_is_zero_witness :
  (forall s, In s [ArrayStrategy sample_overheads sample_heap;
                   WeakRefStrategy sample_overheads sample_heap] ->
             supports s (VNumber 42) = false) /\
  Profiler_computeSize sample_heap 1
    [ArrayStrategy sample_overheads sample_heap;
     WeakRefStrategy sample_overheads sample_heap] (VNumber 42) ∅ = Some (0, ∅).
Proof.
  assert (Hno : forall s, In s [ArrayStrategy sample_overheads sample_heap;
                                 WeakRefStrategy sample_overheads sample_heap] ->
                          supports s (VNumber 42) = false).
  { intros s [<- | [<- | []]]; reflexivity. }
  split; [exact Hno|].
  exact (computeSize_no_strategy_is_zero sample_heap _ (VNumber 42) 0 ∅ Hno).
Defined.

(** *** Formatting *)

(** C9. [formatSize(1024, KILOBYTE)] is "1.00 KB", [formatSize(1024, BYTE)]
    is "1024 B", and a unit outside the four recognized ones is formatted
    as bytes. *)
Theorem formatSize_examples_and_fallback :
  formatSize 1024 (VString eMemoryUnit.KILOBYTE) = "1.00 KB" /\
  formatSize 1024 (VString eMemoryUnit.BYTE) = "1024 B" /\
  (forall bytes unit, ~ recognized_unit unit ->
     formatSize bytes unit = formatSize bytes (VString eMemoryUnit.BYTE)).
Proof.
  split; [reflexivity|]. split; [reflexivity|].
  intros bytes unit Hun. unfold recognized_unit in Hun.
  destruct unit as [| |b|n|n|u|d|a]; try reflexivity.
  unfold formatSize.
  destruct (String.eqb u eMemoryUnit.BYTE) eqn:EB; [reflexivity|].
  destruct (String.eqb u eMemoryUnit.KILOBYTE) eqn:EK.
  { apply String.eqb_eq in EK. subst u. exfalso. apply Hun. tauto. }
  destruct (String.eqb u eMemoryUnit.MEGABYTE) eqn:EM.
  { apply String.eqb_eq in EM. subst u. exfalso. apply Hun. tauto. }
  destruct (String.eqb u eMemoryUnit.GIGABYTE) eqn:EG.
  { apply String.eqb_eq in EG. subst u. exfalso. apply Hun. tauto. }
  reflexivity.
Qed.

Lemma formatSize_examples_and_fallback_witness :
  ~ recognized_unit (VString "TB") /\
  formatSize 2048 (VString "TB") = "2048 B".
Proof.
  assert (Hun : ~ recognized_unit (VString "TB")).
  { unfold recognized_unit. intros [H | [H | [H | H]]]; discriminate H. }
  split; [exact Hun|].
  exact (eq_trans
           (proj2 (proj2 formatSize_examples_and_fallback) 2048 (VString "TB") Hun)
           eq_refl).
Defined.

(** *** Which default strategy takes which value *)

Lemma matches_http_scheme_nonempty (s : string) :
  matches_http_scheme s = true -> String.eqb s "" = false.
Proof. destruct s; [discriminate | reflexivity]. Qed.

Lemma decZ_no_scheme (n : Z) : matches_http_scheme (decZ n) = false.
Proof.
  unfold decZ. destruct (Z.to_int n) as [d | d]; destruct d; reflexivity.
Qed.

Lemma dec_not_length (i : nat) : String.eqb (dec i) "length" = false.
Proof. unfold dec. destruct (Nat.to_uint i); reflexivity. Qed.

(** The catch-all is the first match for plain objects, maps, sets, dates
    and URL objects whose text carries no http scheme. *)
Lemma find_catch_all (ov : Overheads) (h : Heap) (a : addr) :
  match shape (h a) with
  | SObject | SMap _ | SSet _ | SDate | SURL => True
  | _ => False
  end ->
  matches_http_scheme (text (h a)) = false ->
  List.find (fun s => supports s (VRef a)) (default_strategies ov h)
  = Some (DefaultSizeStrategy ov h).
Proof.
  intros Hs Ht. unfold_supports.
  destruct (shape (h a)); try contradiction;
    rewrite Ht, andb_false_r; reflexivity.
Qed.

Lemma find_array (ov : Overheads) (h : Heap) (a : addr) (items : list (option Value)) :
  shape (h a) = SArray items ->
  List.find (fun s => supports s (VRef a)) (default_strategies ov h)
  = Some (ArrayStrategy ov h).
Proof. intros Hs. unfold_supports. now rewrite Hs. Qed.

Lemma find_buffer (ov : Overheads) (h : Heap) (a : addr) (bytes : list Z) :
  shape (h a) = SBuffer bytes ->
  matches_http_scheme (text (h a)) = false ->
  List.find (fun s => supports s (VRef a)) (default_strategies ov h)
  = Some (TypedArraySizeStrategy h).
Proof.
  intros Hs Ht. unfold_supports. rewrite Hs, Ht, andb_false_r. reflexivity.
Qed.

Lemma find_primitive (ov : Overheads) (h : Heap) (v : Value) :
  match v with
  | VRef _ => False
  | VString s => matches_http_scheme s = false
  | _ => True
  end ->
  List.find (fun s => supports s v) (default_strategies ov h)
  = Some (DefaultSizeStrategy ov h).
Proof.
  destruct v as [| |b|n|n|s|d|a]; intros Hv; try contradiction; unfold_supports;
    try reflexivity.
  - destruct b; reflexivity.
  - now rewrite decZ_no_scheme, andb_false_r.
  - now rewrite decZ_no_scheme, andb_false_r.
  - now rewrite Hv, andb_false_r.
Qed.

Lemma computeSize_string (ov : Overheads) (h : Heap) (fuel : nat) (s : string)
    (vis : Visited) :
  Profiler_computeSize h (S fuel) (default_strategies ov h) (VString s) vis =
  Some (if matches_http_scheme s
        then DEFAULT_OBJECT ov + len s * eMemorySize.STRING_CHAR
        else len s * eMemorySize.STRING_CHAR, vis).
Proof.
  rewrite computeSize_S. unfold_supports.
  destruct (matches_http_scheme s) eqn:E.
  - rewrite (matches_http_scheme_nonempty s E). reflexivity.
  - rewrite andb_false_r. reflexivity.
Qed.

(** *** Strings *)

(** C5. A string costs its length times the string unit unless its text
    begins with [http:] or [https:]: such a string is taken by the URL
    strategy and is charged the generic-object base overhead on top, as
    ["https://a.b"] shows with the sample table. *)
Theorem sizeOf_string (ov : Overheads) (h : Heap) (fuel : nat) (s : string) :
  sizeOf_default ov h (S fuel) (VString s) =
    Some (if matches_http_scheme s
          then DEFAULT_OBJECT ov + len s * eMemorySize.STRING_CHAR
          else len s * eMemorySize.STRING_CHAR) /\
  sizeOf_default ov h (S fuel) (VString "") = Some 0 /\
  sizeOf_default ov h (S fuel) (VString "ab") = Some (2 * eMemorySize.STRING_CHAR) /\
  sizeOf_default sample_overheads h (S fuel) (VString "https://a.b")
    = Some (16 + 11 * eMemorySize.STRING_CHAR).
Proof.
  assert (Hgen : forall ov' s', sizeOf_default ov' h (S fuel) (VString s') =
            Some (if matches_http_scheme s'
                  then DEFAULT_OBJECT ov' + len s' * eMemorySize.STRING_CHAR
                  else len s' * eMemorySize.STRING_CHAR)).
  { intros ov' s'. unfold sizeOf_default, Profiler_sizeOf, run, newProfiler.
    cbn [strategies]. now rewrite computeSize_string. }
  repeat split; rewrite Hgen; reflexivity.
Qed.

(** *** Self-reference *)

(** C7. For [a = {}; a.self = a], [sizeOf(a)] is the cost of the key
    ["self"], plus the reference constant for the second encounter of [a],
    plus the generic-object base overhead. *)
Theorem sizeOf_self_reference (ov : Overheads) (h : Heap) (a : addr) (fuel : nat) :
  h a = plainObject [("self", VRef a)] ->
  sizeOf_default ov h (S (S fuel)) (VRef a) =
    Some (len "self" * eMemorySize.STRING_CHAR + eMemorySize.REFERENCE
          + DEFAULT_OBJECT ov).
Proof.
  intros H.
  assert (Hfind : List.find (fun s => supports s (VRef a)) (default_strategies ov h)
                  = Some (DefaultSizeStrategy ov h)).
  { apply find_catch_all; rewrite H; [exact I | reflexivity]. }
  assert (Hobj : asObject h (VRef a) = Some a).
  { unfold asObject. now rewrite H. }
  unfold sizeOf_default, Profiler_sizeOf, run, newProfiler. cbn [strategies].
  rewrite computeSize_S, Hfind. simpl. rewrite H. simpl.
  rewrite bind_run, (isVisited_object h a ∅ Hobj).
  rewrite bool_decide_eq_false_2 by set_solver.
  rewrite bind_run, (markVisited_object h a ∅ Hobj).
  unfold walkProps, forIn. simpl. rewrite bind_run, bind_run.
  rewrite computeSize_S, Hfind. simpl. rewrite H. simpl.
  rewrite bind_run, (isVisited_object h a _ Hobj).
  rewrite bool_decide_eq_true_2 by set_solver.
  unfold ret. cbn. f_equal. unfold len. cbn. lia.
Qed.

Lemma sizeOf_self_reference_witness :
  sample_heap 0%nat = plainObject [("self", VRef 0%nat)] /\
  sizeOf_default sample_overheads sample_heap 2 (VRef 0%nat) = Some 32.
Proof.
  split; [reflexivity|].
  exact (sizeOf_self_reference sample_overheads sample_heap 0%nat 0%nat eq_refl).
Defined.

(** *** Empty containers *)

Lemma sizeOf_default_eq (ov : Overheads) (h : Heap) (fuel : nat) (v : Value) :
  sizeOf_default ov h fuel v =
  fst <$> Profiler_computeSize h fuel (default_strategies ov h) v ∅.
Proof.
  unfold sizeOf_default, Profiler_sizeOf, run, newProfiler. cbn [strategies].
  destruct (Profiler_computeSize h fuel (default_strategies ov h) v ∅)
    as [[n vis]|]; reflexivity.
Qed.

(** C6. The empty array, the empty plain object, the empty map and the
    empty set each cost the base overhead of their shape, which the
    specification describes as non-zero. *)
Theorem empty_containers_cost_base_overhead (ov : Overheads) (h : Heap)
    (arr obj map set : addr) (fuel : nat) :
  overheads_ok ov ->
  h arr = mkObj (SArray []) "" [] ->
  h obj = plainObject [] ->
  h map = mkObj (SMap []) "[object Map]" [] ->
  h set = mkObj (SSet []) "[object Set]" [] ->
  (sizeOf_default ov h (S fuel) (VRef arr) = Some (DEFAULT_ARRAY ov)
   /\ DEFAULT_ARRAY ov <> 0) /\
  (sizeOf_default ov h (S fuel) (VRef obj) = Some (DEFAULT_OBJECT ov)
   /\ DEFAULT_OBJECT ov <> 0) /\
  (sizeOf_default ov h (S fuel) (VRef map) = Some (DEFAULT_MAP ov)
   /\ DEFAULT_MAP ov <> 0) /\
  (sizeOf_default ov h (S fuel) (VRef set) = Some (DEFAULT_SET ov)
   /\ DEFAULT_SET ov <> 0).
Proof.
  intros (Ho & Ha & Hm & Hs & _) Harr Hobj Hmap Hset.
  assert (Hcatch : forall a o,
            h a = o ->
            match shape o with SObject | SMap _ | SSet _ => True | _ => False end ->
            matches_http_scheme (text o) = false ->
            List.find (fun s => supports s (VRef a)) (default_strategies ov h)
              = Some (DefaultSizeStrategy ov h)
            /\ asObject h (VRef a) = Some a).
  { intros a o Ho' Hsh Ht. split.
    - apply find_catch_all; rewrite Ho'; [|exact Ht].
      destruct (shape o); try contradiction; exact I.
    - unfold asObject. rewrite Ho'. destruct (shape o); try contradiction; reflexivity. }
  repeat split; try lia; rewrite sizeOf_default_eq, computeSize_S.
  - rewrite (find_array ov h arr []) by now rewrite Harr.
    simpl. rewrite Harr. reflexivity.
  - destruct (Hcatch obj _ Hobj I eq_refl) as [-> Hasobj].
    simpl. rewrite Hobj. simpl.
    rewrite bind_run, (isVisited_object h obj ∅ Hasobj).
    rewrite bool_decide_eq_false_2 by set_solver.
    rewrite bind_run, (markVisited_object h obj ∅ Hasobj). reflexivity.
  - destruct (Hcatch map _ Hmap I eq_refl) as [-> Hasobj].
    simpl. rewrite Hmap. simpl.
    rewrite bind_run, (isVisited_object h map ∅ Hasobj).
    rewrite bool_decide_eq_false_2 by set_solver.
    rewrite bind_run, (markVisited_object h map ∅ Hasobj). reflexivity.
  - destruct (Hcatch set _ Hset I eq_refl) as [-> Hasobj].
    simpl. rewrite Hset. simpl.
    rewrite bind_run, (isVisited_object h set ∅ Hasobj).
    rewrite bool_decide_eq_false_2 by set_solver.
    rewrite bind_run, (markVisited_object h set ∅ Hasobj). reflexivity.
Qed.

Lemma sample_overheads_ok : overheads_ok sample_overheads.
Proof. unfold overheads_ok, sample_overheads; simpl; lia. Defined.

Lemma empty_containers_cost_base_overhead_witness :
  overheads_ok sample_overheads /\
  sizeOf_default sample_overheads sample_heap 1 (VRef 7%nat) = Some 24 /\
  sizeOf_default sample_overheads sample_heap 1 (VRef 12%nat) = Some 16 /\
  sizeOf_default sample_overheads sample_heap 1 (VRef 8%nat) = Some 32 /\
  sizeOf_default sample_overheads sample_heap 1 (VRef 9%nat) = Some 40.
Proof.
  pose proof (empty_containers_cost_base_overhead sample_overheads sample_heap
                7%nat 12%nat 8%nat 9%nat 0%nat sample_overheads_ok
                eq_refl eq_refl eq_refl eq_refl) as (Ha & Ho & Hm & Hs).
  split; [exact sample_overheads_ok|].
  split; [exact (proj1 Ha)|]. split; [exact (proj1 Ho)|].
  split; [exact (proj1 Hm)|exact (proj1 Hs)].
Defined.

(** *** The detailed path and the strategy list *)

(** C10. The report of [computeDetailedSize] is the same whatever strategy
    list the profiler holds; in particular prepending a strategy with
    [addStrategy] does not change it. *)
Theorem detailed_report_ignores_strategies (h : Heap) (fuel : nat) (value : Value)
    (p1 p2 : Profiler) (extra : ISizeStrategy) :
  fst <$> Profiler_computeDetailedSize h fuel p1 value
    = fst <$> Profiler_computeDetailedSize h fuel p2 value /\
  fst <$> Profiler_computeDetailedSize h fuel (Profiler_addStrategy p1 extra) value
    = fst <$> Profiler_computeDetailedSize h fuel p1 value.
Proof.
  unfold Profiler_computeDetailedSize, run.
  split; destruct (_computeDetailed h fuel value ∅) as [[r vis]|]; reflexivity.
Qed.

(** *** The detailed size against the scalar size *)

Lemma detailed_then_sizeOf_eq (ov : Overheads) (h : Heap) (fuel : nat) (v : Value) :
  detailed_then_sizeOf ov h fuel v =
  match _computeDetailed h fuel v ∅ with
  | Some (report, _) =>
      match Profiler_computeSize h fuel (default_strategies ov h) v ∅ with
      | Some (n, _) => Some (size report, n)
      | None => None
      end
  | None => None
  end.
Proof.
  unfold detailed_then_sizeOf, Profiler_computeDetailedSize, Profiler_sizeOf,
    run, newProfiler. cbn [strategies].
  destruct (_computeDetailed h fuel v ∅) as [[r vis]|]; [|reflexivity].
  cbn [strategies].
  destruct (Profiler_computeSize h fuel (default_strategies ov h) v ∅)
    as [[n vis']|]; reflexivity.
Qed.

(** C1, as amended. On undefined, booleans, numbers, bigints, symbols,
    strings that do not begin with an http scheme, dates and buffers, the
    size of the detailed report equals the number [sizeOf] returns right
    after it. *)
Theorem detailed_size_agrees_on_same_rule_values (ov : Overheads) (h : Heap)
    (fuel : nat) (value : Value) :
  same_rule_value h value ->
  exists n, detailed_then_sizeOf ov h (S fuel) value = Some (n, n).
Proof.
  intros Hv. rewrite detailed_then_sizeOf_eq, computeSize_S.
  destruct value as [| |b|n|n|s|d|a]; cbn [same_rule_value] in Hv;
    try contradiction;
    try (rewrite (find_primitive ov h) by (try exact I; exact Hv);
         simpl; eexists; reflexivity).
  destruct (shape (h a)) eqn:Hs; try contradiction.
  - (* buffer *)
    rewrite (find_buffer ov h a bytes Hs Hv).
    assert (Hobj : asObject h (VRef a) = Some a) by (unfold asObject; now rewrite Hs).
    simpl. rewrite Hs. unfold byteLength. rewrite Hs.
    rewrite bind_run, (isVisited_object h a ∅ Hobj).
    rewrite bool_decide_eq_false_2 by set_solver.
    rewrite bind_run, (markVisited_object h a ∅ Hobj).
    simpl. eexists; reflexivity.
  - (* date *)
    rewrite (find_catch_all ov h a) by (rewrite ?Hs; auto).
    assert (Hobj : asObject h (VRef a) = Some a) by (unfold asObject; now rewrite Hs).
    simpl. rewrite Hs.
    rewrite !bind_run, !(isVisited_object h a ∅ Hobj).
    rewrite bool_decide_eq_false_2 by set_solver.
    rewrite !bind_run, !(markVisited_object h a ∅ Hobj).
    simpl. eexists; reflexivity.
Qed.

Lemma detailed_size_agrees_on_same_rule_values_witness :
  same_rule_value sample_heap (VString "ab") /\
  exists n, detailed_then_sizeOf sample_overheads sample_heap 1 (VString "ab")
            = Some (n, n).
Proof.
  split; [reflexivity|].
  exact (detailed_size_agrees_on_same_rule_values sample_overheads sample_heap
           0%nat (VString "ab") eq_refl).
Defined.

(** C1 fails as stated: for [new Int8Array(1)] the detailed path walks the
    view as a generic object (10) where the typed-array strategy returns
    the byte length (1), and for [null] the detailed path reports the
    constant of [undefined] (1) where [sizeOf] returns the null constant
    (8); no recursion depth makes the two agree. *)
Lemma detailed_size_differs_from_sizeOf :
  ~ (exists fuel n,
       detailed_then_sizeOf sample_overheads sample_heap fuel (VRef 4%nat)
       = Some (n, n)) /\
  ~ (exists fuel n,
       detailed_then_sizeOf sample_overheads sample_heap fuel VNull = Some (n, n)).
Proof.
  split; intros (fuel & n & H).
  - destruct fuel as [|[|fuel]]; vm_compute in H; try discriminate H.
    inversion H; subst; discriminate.
  - destruct fuel as [|fuel]; vm_compute in H; try discriminate H.
    inversion H; subst; discriminate.
Qed.

(** *** Cycles through arrays and functions *)

Lemma cyclic_array_overflows (ov : Overheads) (fuel : nat) (vis : Visited) :
  Profiler_computeSize sample_heap fuel (default_strategies ov sample_heap)
    (VRef 1%nat) vis = None.
Proof.
  revert vis. induction fuel as [|fuel IH]; intros vis; [reflexivity|].
  rewrite computeSize_S.
  change (List.find (fun s => supports s (VRef 1%nat))
            (default_strategies ov sample_heap))
    with (Some (ArrayStrategy ov sample_heap)).
  cbn [sizeOf ArrayStrategy]. unfold ArrayStrategy_sizeOf.
  cbn [sample_heap shape iterate map]. unfold walkItems. cbn [forEach].
  rewrite !bind_run. cbn [computeSize]. now rewrite IH.
Qed.

Lemma cyclic_function_overflows (ov : Overheads) (fuel : nat) (vis : Visited) :
  Profiler_computeSize sample_heap fuel (default_strategies ov sample_heap)
    (VRef 5%nat) vis = None.
Proof.
  revert vis. induction fuel as [|fuel IH]; intros vis; [reflexivity|].
  rewrite computeSize_S.
  change (List.find (fun s => supports s (VRef 5%nat))
            (default_strategies ov sample_heap))
    with (Some (FunctionSizeStrategy ov sample_heap)).
  cbn [sizeOf FunctionSizeStrategy]. unfold FunctionSizeStrategy_sizeOf.
  cbn [sample_heap]. unfold walkProps, forIn. cbn [shape props forEach fst snd].
  rewrite !bind_run. cbn [computeSize]. now rewrite IH.
Qed.

Lemma cyclic_function_detailed_overflows (fuel : nat) (vis : Visited) :
  _computeDetailed sample_heap fuel (VRef 5%nat) vis = None.
Proof.
  revert vis. induction fuel as [|fuel IH]; intros vis; [reflexivity|].
  cbn [_computeDetailed sample_heap shape].
  rewrite bind_run. unfold Profiler_isVisited at 1. cbn [asObject sample_heap shape].
  rewrite bind_run. unfold Profiler_markVisited at 1. cbn [asObject sample_heap shape].
  unfold forIn. cbn [shape props forEach fst snd sample_heap].
  rewrite !bind_run. now rewrite IH.
Qed.

(** C2 fails on the code: [a = []; a.push(a)] makes [sizeOf] recurse
    without end, because the array strategy never consults the visitation
    tracker (the detailed path does, and returns); and a function that
    holds itself as a property, [f.self = f], makes both entry points
    recurse without end, because the tracker only records values whose
    [typeof] is ["object"]. *)
Theorem cyclic_array_and_function_never_return (ov : Overheads) (fuel : nat) :
  sizeOf_default ov sample_heap fuel (VRef 1%nat) = None /\
  detailed_default ov sample_heap (S (S fuel)) (VRef 1%nat)
    = Some (mkReport "array" 8 (Some [("0", mkReport "array" 8 None)])) /\
  sizeOf_default ov sample_heap fuel (VRef 5%nat) = None /\
  detailed_default ov sample_heap fuel (VRef 5%nat) = None.
Proof.
  split; [|split; [|split]].
  - now rewrite sizeOf_default_eq, cyclic_array_overflows.
  - vm_compute. reflexivity.
  - now rewrite sizeOf_default_eq, cyclic_function_overflows.
  - unfold detailed_default, Profiler_computeDetailedSize, run.
    now rewrite cyclic_function_detailed_overflows.
Qed.

(** *** The sum invariant of reports *)

(** C3 fails on the code.  For [new Map([[1, true], ["1", false]])] both
    keys are labelled ["key:1"] and both values ["val:1"]: the second entry
    overwrites the children of the first while [size] keeps all four costs,
    so the node reports 18 over children that sum to 6 (the map with keys 1
    and 2 reports 24 over children that sum to 24).  And a function reached
    twice, as in [{ a: g, b: g }], is expanded twice instead of appearing as
    a reference leaf the second time. *)
Theorem map_label_collision_breaks_report_sum (ov : Overheads) (fuel : nat) :
  (exists r, detailed_default ov sample_heap (S (S fuel)) (VRef 3%nat) = Some r /\
     r = mkReport "map" 18 (Some [("key:1", mkReport "string" 2 None);
                                  ("val:1", mkReport "boolean" 4 None)]) /\
     size r = 18 /\ children_total r = 6) /\
  (exists r, detailed_default ov sample_heap (S (S fuel)) (VRef 6%nat) = Some r /\
     size r = 24 /\ children_total r = 24) /\
  detailed_default ov sample_heap (S (S fuel)) (VRef 11%nat) =
    Some (mkReport "object" 32
            (Some [("a", mkReport "function" 14 (Some []));
                   ("b", mkReport "function" 14 (Some []))])).
Proof.
  split; [|split].
  - eexists. split; [vm_compute; reflexivity|]. repeat split.
  - eexists. split; [vm_compute; reflexivity|]. split; reflexivity.
  - vm_compute. reflexivity.
Qed.

(** *** The array rule *)

Lemma forEach_app {A S : Type} (xs ys : list A) (body : A -> S -> M S) (acc : S)
    (vis : Visited) :
  forEach (xs ++ ys) body acc vis =
  bind (forEach xs body acc) (fun acc' => forEach ys body acc') vis.
Proof.
  revert acc vis. induction xs as [|x xs IH]; intros acc vis.
  - reflexivity.
  - cbn [forEach app]. rewrite !bind_run.
    destruct (body x acc vis) as [[acc' vis']|]; [|reflexivity].
    rewrite IH. reflexivity.
Qed.

(** The index keys all pass the [key !== "length"] test. *)
Lemma walkProps_index_keys (profiler : IProfiler) (items : list (option Value))
    (i : nat) (size : Z) (vis : Visited) :
  walkProps profiler (fun key => negb (String.eqb key "length"))
            (indexProps i items) size vis =
  walkProps profiler (fun _ => true) (indexProps i items) size vis.
Proof.
  unfold walkProps. revert i size vis.
  induction items as [|[v|] items IH]; intros i size vis; cbn [indexProps].
  - reflexivity.
  - cbn [forEach fst snd]. rewrite dec_not_length. cbn [negb].
    rewrite !bind_run.
    destruct (computeSize profiler v vis) as [[c vis']|]; [|reflexivity].
    cbn [ret]. apply IH.
  - apply IH.
Qed.

(** C4, as amended.  [sizeOf] of an array is the base array overhead, plus
    the cost of every element (a hole counting as [undefined]), plus key
    and value of every own enumerable property other than [length] - the
    index properties included, so that each element that is not a hole is
    charged a second time together with its decimal index. *)
Theorem sizeOf_array (ov : Overheads) (h : Heap) (a : addr)
    (items : list (option Value)) (fuel : nat) :
  shape (h a) = SArray items ->
  let profiler :=
    mkIProfiler (Profiler_isVisited h) (Profiler_markVisited h)
                (Profiler_computeSize h fuel (default_strategies ov h)) in
  sizeOf_default ov h (S fuel) (VRef a) =
  fst <$> (let* elements := walkItems profiler (iterate items) (DEFAULT_ARRAY ov) in
           let* indexed := walkProps profiler (fun _ => true)
                             (indexProps 0 items) elements in
           walkProps profiler (fun key => negb (String.eqb key "length"))
                     (props (h a)) indexed) ∅.
Proof.
  intros Hs profiler.
  rewrite sizeOf_default_eq, computeSize_S, (find_array ov h a items Hs).
  cbn [sizeOf ArrayStrategy]. unfold ArrayStrategy_sizeOf, forIn. rewrite Hs.
  fold profiler. f_equal. rewrite !bind_run.
  destruct (walkItems profiler (iterate items) (DEFAULT_ARRAY ov) ∅)
    as [[elements vis]|]; [|reflexivity].
  unfold walkProps at 1. rewrite forEach_app, !bind_run.
  fold (walkProps profiler (fun key => negb (String.eqb key "length"))
          (indexProps 0 items) elements vis).
  rewrite walkProps_index_keys. reflexivity.
Qed.

Lemma sizeOf_array_witness :
  shape (sample_heap 2%nat) = SArray [Some (VBoolean true)] /\
  sizeOf_default sample_overheads sample_heap 2 (VRef 2%nat) = Some 34.
Proof.
  split; [reflexivity|].
  exact (sizeOf_array sample_overheads sample_heap 2%nat
           [Some (VBoolean true)] 1%nat eq_refl).
Defined.

(** C4 fails as stated: for [[true]] the rule of the specification gives
    the base overhead plus 4, the code gives 6 more, the cost of the key
    ["0"] and of the element once again. *)
Lemma sizeOf_array_charges_indices :
  ~ (exists fuel n,
       sizeOf_default sample_overheads sample_heap fuel (VRef 2%nat) = Some n /\
       sizeOf_array_spec sample_overheads sample_heap fuel (VRef 2%nat) = Some n).
Proof.
  intros (fuel & n & Hcode & Hspec).
  destruct fuel as [|[|fuel]]; vm_compute in Hcode, Hspec; try discriminate.
  congruence.
Qed.

(** ** Further properties of the code *)

(** *** Primitives *)

Lemma computeSize_primitive (ov : Overheads) (h : Heap) (fuel : nat) (v : Value)
    (vis : Visited) :
  plain_primitive v ->
  Profiler_computeSize h (S fuel) (default_strategies ov h) v vis
  = Some (primitive_cost v, vis).
Proof.
  intros Hv. rewrite computeSize_S, (find_primitive ov h v Hv).
  destruct v as [| |b|n|n|s|[d|]|a]; try contradiction; try reflexivity.
  destruct d; reflexivity.
Qed.

(** X1. Under the default strategies every boolean, number, bigint,
    [undefined] and [null] costs the fixed constant of its kind, and a
    symbol costs its description length times the string unit (0 without a
    description). *)
Theorem sizeOf_primitives (ov : Overheads) (h : Heap) (fuel : nat) :
  (forall b, sizeOf_default ov h (S fuel) (VBoolean b) = Some eMemorySize.BOOLEAN) /\
  (forall n, sizeOf_default ov h (S fuel) (VNumber n) = Some eMemorySize.NUMBER) /\
  (forall n, sizeOf_default ov h (S fuel) (VBigInt n) = Some eMemorySize.BIGINT) /\
  sizeOf_default ov h (S fuel) VUndefined = Some eMemorySize.UNDEFINED /\
  sizeOf_default ov h (S fuel) VNull = Some eMemorySize.NULL /\
  sizeOf_default ov h (S fuel) (VSymbol None) = Some 0 /\
  (forall d, sizeOf_default ov h (S fuel) (VSymbol (Some d))
             = Some (len d * eMemorySize.STRING_CHAR)).
Proof.
  assert (H : forall v, plain_primitive v ->
              sizeOf_default ov h (S fuel) v = Some (primitive_cost v)).
  { intros v Hv. now rewrite sizeOf_default_eq, computeSize_primitive. }
  split; [|split; [|split; [|split; [|split; [|split]]]]]; intros;
    now rewrite H.
Qed.

(** *** Values the catch-all never sees *)

(** X2. Whatever its shape - other than an array, a regexp or a weak
    reference, which come earlier in the list - a value whose [toString()]
    text begins with [http:] or [https:] is costed by the URL rule: the
    generic-object base overhead plus the text length times the string
    unit, with nothing recorded in the tracker.  URL objects, but also
    strings and buffers with such a text, fall under it. *)
Theorem url_rule_shadows_later_strategies (ov : Overheads) (h : Heap)
    (fuel : nat) (v : Value) (s : string) (vis : Visited) :
  toString h v = Some s ->
  matches_http_scheme s = true ->
  ArrayStrategy_supports h v = false ->
  RegExpStrategy_supports h v = false ->
  WeakRefStrategy_supports h v = false ->
  Profiler_computeSize h (S fuel) (default_strategies ov h) v vis
  = Some (DEFAULT_OBJECT ov + len s * eMemorySize.STRING_CHAR, vis).
Proof.
  intros Hs Hm Ha Hr Hw. rewrite computeSize_S.
  unfold default_strategies.
  cbn [List.find supports ArrayStrategy RegExpStrategy WeakRefStrategy
       URLSizeStrategy].
  rewrite Ha, Hr, Hw. unfold URLSizeStrategy_supports. rewrite Hs, Hm.
  rewrite (matches_http_scheme_nonempty s Hm).
  cbn [negb andb sizeOf URLSizeStrategy]. unfold URLSizeStrategy_sizeOf.
  rewrite Hs.
  reflexivity.
Qed.
Lemma url_rule_shadows_later_strategies_witness :
  toString sample_heap2 (VRef 1%nat) = Some "http://x" /\
  Profiler_computeSize sample_heap2 1
    (default_strategies sample_overheads sample_heap2) (VRef 1%nat) ∅
  = Some (32, ∅).
Proof.
  split; [reflexivity|].
  exact (url_rule_shadows_later_strategies sample_overheads sample_heap2 0%nat
           (VRef 1%nat) "http://x" ∅ eq_refl eq_refl eq_refl eq_refl eq_refl).
Defined.

(** *** Leaf shapes *)

Lemma find_typed_array (ov : Overheads) (h : Heap) (a : addr) :
  match shape (h a) with STypedArray _ _ | SBuffer _ => True | _ => False end ->
  matches_http_scheme (text (h a)) = false ->
  List.find (fun s => supports s (VRef a)) (default_strategies ov h)
  = Some (TypedArraySizeStrategy h).
Proof.
  intros Hs Ht. unfold_supports.
  destruct (shape (h a)); try contradiction; rewrite Ht, andb_false_r; reflexivity.
Qed.

Lemma find_array_buffer (ov : Overheads) (h : Heap) (a : addr) (n : nat) :
  shape (h a) = SArrayBuffer n ->
  matches_http_scheme (text (h a)) = false ->
  List.find (fun s => supports s (VRef a)) (default_strategies ov h)
  = Some (ArrayBufferStrategy h).
Proof. intros Hs Ht. unfold_supports. rewrite Hs, Ht, andb_false_r. reflexivity. Qed.

Lemma find_data_view (ov : Overheads) (h : Heap) (a : addr) (n : nat) :
  shape (h a) = SDataView n ->
  matches_http_scheme (text (h a)) = false ->
  List.find (fun s => supports s (VRef a)) (default_strategies ov h)
  = Some (DataViewStrategy h).
Proof. intros Hs Ht. unfold_supports. rewrite Hs, Ht, andb_false_r. reflexivity. Qed.

Lemma find_weak_ref (ov : Overheads) (h : Heap) (a : addr) :
  shape (h a) = SWeakRef ->
  List.find (fun s => supports s (VRef a)) (default_strategies ov h)
  = Some (WeakRefStrategy ov h).
Proof. intros Hs. unfold_supports. now rewrite Hs. Qed.

Lemma find_regexp (ov : Overheads) (h : Heap) (a : addr) (source flags : string) :
  shape (h a) = SRegExp source flags ->
  List.find (fun s => supports s (VRef a)) (default_strategies ov h)
  = Some (RegExpStrategy ov h).
Proof. intros Hs. unfold_supports. now rewrite Hs. Qed.

Lemma find_function (ov : Overheads) (h : Heap) (a : addr) (p : Value) :
  shape (h a) = SFunction p ->
  matches_http_scheme (text (h a)) = false ->
  List.find (fun s => supports s (VRef a)) (default_strategies ov h)
  = Some (FunctionSizeStrategy ov h).
Proof. intros Hs Ht. unfold_supports. rewrite Hs, Ht, andb_false_r. reflexivity. Qed.

(** X3. The byte-addressed shapes cost exactly their byte length - element
    count times element width for a typed array, the number of bytes for a
    buffer, an array buffer and a data view - whatever the overhead table,
    and leave the tracker untouched.  (The text condition excludes a
    buffer whose content decodes to an http URL, which the URL rule
    takes.) *)
Theorem binary_shapes_cost_byte_length (ov : Overheads) (h : Heap) (a : addr)
    (fuel : nat) (vis : Visited) :
  matches_http_scheme (text (h a)) = false ->
  (forall c els, shape (h a) = STypedArray c els ->
     Profiler_computeSize h (S fuel) (default_strategies ov h) (VRef a) vis
     = Some (Z.of_nat (List.length els * BYTES_PER_ELEMENT c), vis)) /\
  (forall bytes, shape (h a) = SBuffer bytes ->
     Profiler_computeSize h (S fuel) (default_strategies ov h) (VRef a) vis
     = Some (Z.of_nat (List.length bytes), vis)) /\
  (forall n, shape (h a) = SArrayBuffer n \/ shape (h a) = SDataView n ->
     Profiler_computeSize h (S fuel) (default_strategies ov h) (VRef a) vis
     = Some (Z.of_nat n, vis)).
Proof.
  intros Ht. split; [|split].
  - intros c els Hs. rewrite computeSize_S, find_typed_array; [|now rewrite Hs|exact Ht].
    cbn [sizeOf TypedArraySizeStrategy]. unfold TypedArraySizeStrategy_sizeOf,
      byteLengthOf, byteLength. now rewrite Hs.
  - intros bytes Hs. rewrite computeSize_S, find_typed_array; [|now rewrite Hs|exact Ht].
    cbn [sizeOf TypedArraySizeStrategy]. unfold TypedArraySizeStrategy_sizeOf,
      byteLengthOf, byteLength. now rewrite Hs.
  - intros n [Hs | Hs]; rewrite computeSize_S.
    + rewrite (find_array_buffer ov h a n Hs Ht).
      cbn [sizeOf ArrayBufferStrategy]. unfold byteLengthOf, byteLength. now rewrite Hs.
    + rewrite (find_data_view ov h a n Hs Ht).
      cbn [sizeOf DataViewStrategy]. unfold byteLengthOf, byteLength. now rewrite Hs.
Qed.

Lemma binary_shapes_cost_byte_length_witness :
  matches_http_scheme (text (sample_heap2 3%nat)) = false /\
  Profiler_computeSize sample_heap2 1
    (default_strategies sample_overheads sample_heap2) (VRef 3%nat) ∅
  = Some (20, ∅).
Proof.
  split; [reflexivity|].
  exact (proj1 (binary_shapes_cost_byte_length sample_overheads sample_heap2
                  3%nat 0%nat ∅ eq_refl) Int16Array (repeat 0 10) eq_refl).
Defined.

(** X4. A weak reference costs the reference constant plus the weak
    reference overhead; its referent is never followed and nothing is
    recorded in the tracker. *)
Theorem weak_ref_cost (ov : Overheads) (h : Heap) (a : addr) (fuel : nat)
    (vis : Visited) :
  shape (h a) = SWeakRef ->
  Profiler_computeSize h (S fuel) (default_strategies ov h) (VRef a) vis
  = Some (eMemorySize.REFERENCE + DEFAULT_WEAKREF ov, vis).
Proof.
  intros Hs. now rewrite computeSize_S, (find_weak_ref ov h a Hs).
Qed.

Lemma weak_ref_cost_witness :
  shape (sample_heap2 6%nat) = SWeakRef /\
  Profiler_computeSize sample_heap2 1
    (default_strategies sample_overheads sample_heap2) (VRef 6%nat) ∅
  = Some (72, ∅).
Proof.
  split; [reflexivity|].
  exact (weak_ref_cost sample_overheads sample_heap2 6%nat 0%nat ∅ eq_refl).
Defined.

(** *** Containers of primitives *)

Lemma walkItems_primitives (ov : Overheads) (h : Heap) (fuel : nat)
    (vs : list Value) (size : Z) (vis : Visited) :
  Forall plain_primitive vs ->
  walkItems (mkIProfiler (Profiler_isVisited h) (Profiler_markVisited h)
               (Profiler_computeSize h (S fuel) (default_strategies ov h)))
            vs size vis
  = Some (size + sum_costs vs, vis).
Proof.
  unfold walkItems. intros Hvs. revert size.
  induction Hvs as [|v vs Hv _ IH]; intros size; cbn [forEach sum_costs fold_right].
  - unfold ret. do 2 f_equal. lia.
  - rewrite !bind_run. cbn [computeSize].
    rewrite (computeSize_primitive ov h fuel v vis Hv). cbn [ret].
    rewrite IH. unfold sum_costs. do 2 f_equal. lia.
Qed.

Lemma walkProps_primitives (ov : Overheads) (h : Heap) (fuel : nat)
    (keep : string -> bool) (ps : Props) (size : Z) (vis : Visited) :
  Forall (fun kv => plain_primitive (snd kv)) ps ->
  walkProps (mkIProfiler (Profiler_isVisited h) (Profiler_markVisited h)
               (Profiler_computeSize h (S fuel) (default_strategies ov h)))
            keep ps size vis
  = Some (size + sum_prop_costs (List.filter (fun kv => keep (fst kv)) ps), vis).
Proof.
  unfold walkProps. intros Hps. revert size.
  induction Hps as [|[k v] ps Hv _ IH]; intros size; cbn [forEach List.filter fst snd].
  - unfold ret. cbn. do 2 f_equal. lia.
  - destruct (keep k).
    + rewrite !bind_run. cbn [computeSize].
      rewrite (computeSize_primitive ov h fuel v vis Hv). cbn [ret].
      rewrite IH. cbn [sum_prop_costs fold_right fst snd]. do 2 f_equal.
      unfold sum_prop_costs. lia.
    + rewrite bind_run. cbn [ret]. apply IH.
Qed.

Lemma filter_all {A : Type} (l : list A) : List.filter (fun _ => true) l = l.
Proof. induction l as [|x l IH]; [reflexivity|]. cbn. now rewrite IH. Qed.

Lemma tracked_find (ov : Overheads) (h : Heap) (a : addr) :
  tracked_object (h a) ->
  List.find (fun s => supports s (VRef a)) (default_strategies ov h)
    = Some (DefaultSizeStrategy ov h)
  /\ asObject h (VRef a) = Some a.
Proof.
  intros [Hs Ht]. split; [now apply find_catch_all|].
  unfold asObject. destruct (shape (h a)); try contradiction; reflexivity.
Qed.

Lemma computeSize_revisit (ov : Overheads) (h : Heap) (a : addr)
    (fuel : nat) (vis : Visited) :
  tracked_object (h a) ->
  a ∈ vis ->
  Profiler_computeSize h (S fuel) (default_strategies ov h) (VRef a) vis
  = Some (eMemorySize.REFERENCE, vis).
Proof.
  intros Ht Hin. destruct (tracked_find ov h a Ht) as [Hfind Hobj].
  destruct Ht as [Hs _].
  rewrite computeSize_S, Hfind. cbn [sizeOf DefaultSizeStrategy].
  unfold DefaultSizeStrategy_sizeOf.
  destruct (shape (h a)); try contradiction;
    cbn [isVisited]; rewrite bind_run, (isVisited_object h a vis Hobj);
    rewrite bool_decide_eq_true_2 by exact Hin; reflexivity.
Qed.

(** X5. A tracked object met again in the same call - a plain object, map,
    set, date or URL-less object that the tracker already holds - costs
    exactly the reference constant, whatever it contains, and is not
    traversed. *)
Theorem revisit_costs_reference (ov : Overheads) (h : Heap) (a : addr)
    (fuel : nat) (vis : Visited) :
  tracked_object (h a) ->
  a ∈ vis ->
  Profiler_computeSize h (S fuel) (default_strategies ov h) (VRef a) vis
  = Some (eMemorySize.REFERENCE, vis).
Proof.
  intros Ht Hin. destruct (tracked_find ov h a Ht) as [Hfind Hobj].
  destruct Ht as [Hs _].
  rewrite computeSize_S, Hfind. cbn [sizeOf DefaultSizeStrategy].
  unfold DefaultSizeStrategy_sizeOf.
  destruct (shape (h a)); try contradiction;
    cbn [isVisited]; rewrite bind_run, (isVisited_object h a vis Hobj);
    rewrite bool_decide_eq_true_2 by exact Hin; reflexivity.
Qed.

Lemma revisit_costs_reference_witness :
  tracked_object (sample_heap2 14%nat) /\ (14%nat ∈ ({[14%nat]} : Visited)) /\
  Profiler_computeSize sample_heap2 1
    (default_strategies sample_overheads sample_heap2) (VRef 14%nat) {[14%nat]}
  = Some (8, {[14%nat]}).
Proof.
  assert (Ht : tracked_object (sample_heap2 14%nat)) by (split; [exact I|reflexivity]).
  assert (Hin : 14%nat ∈ ({[14%nat]} : Visited)) by (apply elem_of_singleton_2; reflexivity).
  split; [exact Ht|]. split; [exact Hin|].
  exact (revisit_costs_reference sample_overheads sample_heap2 14%nat 0%nat _ Ht Hin).
Defined.

(** X6. An unvisited plain object whose property values are all
    primitives costs the generic-object base overhead plus, for every own
    enumerable property, the key length times the string unit and the
    constant of the value; an unvisited map of primitives costs the map
    overhead plus the costs of its keys and values, an unvisited set of
    primitives the set overhead plus the costs of its members.  In each
    case the container, and nothing else, is added to the tracker. *)
Theorem flat_containers_cost (ov : Overheads) (h : Heap) (a : addr)
    (fuel : nat) (vis : Visited) :
  matches_http_scheme (text (h a)) = false ->
  a ∉ vis ->
  (shape (h a) = SObject ->
   Forall (fun kv => plain_primitive (snd kv)) (props (h a)) ->
   Profiler_computeSize h (S (S fuel)) (default_strategies ov h) (VRef a) vis
   = Some (DEFAULT_OBJECT ov + sum_prop_costs (props (h a)), {[a]} ∪ vis)) /\
  (forall entries, shape (h a) = SMap entries ->
   Forall (fun kv => plain_primitive (fst kv) /\ plain_primitive (snd kv)) entries ->
   Profiler_computeSize h (S (S fuel)) (default_strategies ov h) (VRef a) vis
   = Some (DEFAULT_MAP ov + sum_entry_costs entries, {[a]} ∪ vis)) /\
  (forall members, shape (h a) = SSet members ->
   Forall plain_primitive members ->
   Profiler_computeSize h (S (S fuel)) (default_strategies ov h) (VRef a) vis
   = Some (DEFAULT_SET ov + sum_costs members, {[a]} ∪ vis)).
Proof.
  intros Ht Hnin.
  assert (Hstart : forall sh, shape (h a) = sh ->
            match sh with SObject | SMap _ | SSet _ => True | _ => False end ->
            List.find (fun s => supports s (VRef a)) (default_strategies ov h)
              = Some (DefaultSizeStrategy ov h)
            /\ asObject h (VRef a) = Some a).
  { intros sh Hs Hsh. apply tracked_find. split; [|exact Ht].
    rewrite Hs. destruct sh; try contradiction; exact I. }
  split; [|split].
  - intros Hs Hps. destruct (Hstart _ Hs I) as [Hfind Hobj].
    rewrite computeSize_S, Hfind. cbn [sizeOf DefaultSizeStrategy].
    unfold DefaultSizeStrategy_sizeOf. rewrite Hs. cbn [isVisited markVisited].
    rewrite bind_run, (isVisited_object h a vis Hobj).
    rewrite bool_decide_eq_false_2 by exact Hnin.
    rewrite bind_run, (markVisited_object h a vis Hobj).
    unfold forIn. rewrite Hs.
    rewrite (walkProps_primitives ov h fuel _ _ _ _ Hps), filter_all. reflexivity.
  - intros entries Hs Hes. destruct (Hstart _ Hs I) as [Hfind Hobj].
    rewrite computeSize_S, Hfind. cbn [sizeOf DefaultSizeStrategy].
    unfold DefaultSizeStrategy_sizeOf. rewrite Hs. cbn [isVisited markVisited].
    rewrite bind_run, (isVisited_object h a vis Hobj).
    rewrite bool_decide_eq_false_2 by exact Hnin.
    rewrite bind_run, (markVisited_object h a vis Hobj).
    clear Hs. generalize (DEFAULT_MAP ov) as size. generalize ({[a]} ∪ vis) as vis1.
    induction Hes as [|[k v] es [Hk Hv] _ IH]; intros vis1 size;
      cbn [forEach sum_entry_costs fold_right fst snd].
    + unfold ret. do 2 f_equal. lia.
    + rewrite !bind_run. cbn [computeSize].
      rewrite (computeSize_primitive ov h fuel k vis1 Hk).
      rewrite bind_run, (computeSize_primitive ov h fuel v vis1 Hv). cbn [ret].
      rewrite IH. unfold sum_entry_costs. do 2 f_equal. lia.
  - intros members Hs Hms. destruct (Hstart _ Hs I) as [Hfind Hobj].
    rewrite computeSize_S, Hfind. cbn [sizeOf DefaultSizeStrategy].
    unfold DefaultSizeStrategy_sizeOf. rewrite Hs. cbn [isVisited markVisited].
    rewrite bind_run, (isVisited_object h a vis Hobj).
    rewrite bool_decide_eq_false_2 by exact Hnin.
    rewrite bind_run, (markVisited_object h a vis Hobj).
    now rewrite (walkItems_primitives ov h fuel members _ _ Hms).
Qed.

Lemma flat_containers_cost_witness :
  matches_http_scheme (text (sample_heap2 14%nat)) = false /\
  (14%nat ∉ (∅ : Visited)) /\
  Profiler_computeSize sample_heap2 2
    (default_strategies sample_overheads sample_heap2) (VRef 14%nat) ∅
  = Some (64, {[14%nat]} ∪ ∅).
Proof.
  assert (Hnin : 14%nat ∉ (∅ : Visited)) by apply not_elem_of_empty.
  assert (Hps : Forall (fun kv : string * Value => plain_primitive (snd kv))
                  (props (sample_heap2 14%nat))).
  { repeat constructor. }
  split; [reflexivity|]. split; [exact Hnin|].
  exact (proj1 (flat_containers_cost sample_overheads sample_heap2 14%nat 0%nat ∅
                  eq_refl Hnin) eq_refl Hps).
Defined.

(** *** Regular expressions and functions *)

(** X7. A regexp costs the regexp overhead, source and flags at the string
    unit, one numeric unit for [lastIndex], and key and value of its own
    enumerable properties other than [source], [flags] and [lastIndex]
    (here with primitive values).  It is never recorded in the tracker, so
    a regexp reached twice is charged in full twice. *)
Theorem regexp_cost (ov : Overheads) (h : Heap) (a : addr) (source flags : string)
    (fuel : nat) (vis : Visited) :
  shape (h a) = SRegExp source flags ->
  Forall (fun kv => plain_primitive (snd kv)) (props (h a)) ->
  Profiler_computeSize h (S (S fuel)) (default_strategies ov h) (VRef a) vis
  = Some (DEFAULT_REGEXP ov + len source * eMemorySize.STRING_CHAR
          + len flags * eMemorySize.STRING_CHAR
          + sum_prop_costs (List.filter (fun kv => regexp_key (fst kv)) (props (h a)))
          + eMemorySize.NUMBER, vis).
Proof.
  intros Hs Hps. rewrite computeSize_S, (find_regexp ov h a source flags Hs).
  cbn [sizeOf RegExpStrategy]. unfold RegExpStrategy_sizeOf, forIn. rewrite Hs.
  rewrite bind_run.
  fold regexp_key.
  change (fun key : string =>
            negb (String.eqb key "source") && negb (String.eqb key "flags")
            && negb (String.eqb key "lastIndex")) with regexp_key.
  rewrite (walkProps_primitives ov h fuel regexp_key _ _ vis Hps). reflexivity.
Qed.

Lemma regexp_cost_witness :
  shape (sample_heap2 7%nat) = SRegExp "abc" "gi" /\
  Profiler_computeSize sample_heap2 2
    (default_strategies sample_overheads sample_heap2) (VRef 7%nat) ∅
  = Some (74, ∅).
Proof.
  split; [reflexivity|].
  exact (regexp_cost sample_overheads sample_heap2 7%nat "abc" "gi" 0%nat ∅
           eq_refl (List.Forall_nil _)).
Defined.

(** X8. A function costs the callable overhead, its source text at the
    string unit, and key and value of its own enumerable properties (here
    with primitive values); when its [prototype] is an object, the cost of
    that object is added, otherwise (an arrow function) nothing more.  The
    function itself is never recorded in the tracker. *)
Theorem function_cost (ov : Overheads) (h : Heap) (a : addr) (p : Value)
    (fuel : nat) (vis : Visited) :
  shape (h a) = SFunction p ->
  matches_http_scheme (text (h a)) = false ->
  Forall (fun kv => plain_primitive (snd kv)) (props (h a)) ->
  let own := DEFAULT_FUNCTION ov + len (text (h a)) * eMemorySize.STRING_CHAR
             + sum_prop_costs (props (h a)) in
  (isObjectValue h (prototypeOf (h a)) = false ->
   Profiler_computeSize h (S (S fuel)) (default_strategies ov h) (VRef a) vis
   = Some (own, vis)) /\
  (forall c vis',
   isObjectValue h (prototypeOf (h a)) = true ->
   Profiler_computeSize h (S fuel) (default_strategies ov h) (prototypeOf (h a)) vis
   = Some (c, vis') ->
   Profiler_computeSize h (S (S fuel)) (default_strategies ov h) (VRef a) vis
   = Some (own + c, vis')).
Proof.
  intros Hs Ht Hps own.
  assert (Hwalk : Profiler_computeSize h (S (S fuel)) (default_strategies ov h) (VRef a) vis
    = (if isObjectValue h (prototypeOf (h a))
       then bind (Profiler_computeSize h (S fuel) (default_strategies ov h)
                    (prototypeOf (h a)))
                 (fun c => ret (own + c))
       else ret own) vis).
  { rewrite computeSize_S, (find_function ov h a p Hs Ht).
    cbn [sizeOf FunctionSizeStrategy]. unfold FunctionSizeStrategy_sizeOf, forIn.
    rewrite Hs. rewrite bind_run.
    rewrite (walkProps_primitives ov h fuel _ _ _ vis Hps), filter_all.
    unfold toStringObj. rewrite Hs. reflexivity. }
  split.
  - intros Hp. now rewrite Hwalk, Hp.
  - intros c vis' Hp Hc. now rewrite Hwalk, Hp, bind_run, Hc.
Qed.

Lemma function_cost_witness :
  shape (sample_heap2 8%nat) = SFunction VUndefined /\
  matches_http_scheme (text (sample_heap2 8%nat)) = false /\
  Profiler_computeSize sample_heap2 2
    (default_strategies sample_overheads sample_heap2) (VRef 8%nat) ∅
  = Some (66, ∅).
Proof.
  split; [reflexivity|]. split; [reflexivity|].
  exact (proj1 (function_cost sample_overheads sample_heap2 8%nat VUndefined
                  0%nat ∅ eq_refl eq_refl (List.Forall_nil _)) eq_refl).
Defined.

(** *** The tracker *)

Lemma tracks_ret (h : Heap) {A : Type} (x : A) : tracks_objects h (ret x).
Proof.
  intros vis y vis' H. inversion H; subst. split; [set_solver|]. auto.
Qed.

Lemma tracks_bind (h : Heap) {A B : Type} (m : M A) (k : A -> M B) :
  tracks_objects h m -> (forall x, tracks_objects h (k x)) ->
  tracks_objects h (bind m k).
Proof.
  intros Hm Hk vis y vis' H. rewrite bind_run in H.
  destruct (m vis) as [[x vis1]|] eqn:E; [|discriminate].
  destruct (Hm _ _ _ E) as [Hsub1 Hobj1].
  destruct (Hk x _ _ _ H) as [Hsub2 Hobj2].
  split; [set_solver|].
  intros b Hb. destruct (Hobj2 b Hb) as [Hb1 | Hb1]; [|now right].
  apply Hobj1, Hb1.
Qed.

Lemma tracks_forEach (h : Heap) {A S : Type} (xs : list A) (body : A -> S -> M S)
    (acc : S) :
  (forall x acc', tracks_objects h (body x acc')) ->
  tracks_objects h (forEach xs body acc).
Proof.
  intros Hbody. revert acc. induction xs as [|x xs IH]; intros acc; cbn [forEach].
  - apply tracks_ret.
  - apply tracks_bind; [apply Hbody | intros acc'; apply IH].
Qed.

Lemma tracks_isVisited (h : Heap) (v : Value) : tracks_objects h (Profiler_isVisited h v).
Proof.
  intros vis x vis' H. unfold Profiler_isVisited in H. inversion H; subst.
  split; [set_solver|]. auto.
Qed.

Lemma tracks_markVisited (h : Heap) (v : Value) :
  tracks_objects h (Profiler_markVisited h v).
Proof.
  intros vis x vis' H. unfold Profiler_markVisited in H.
  destruct (asObject h v) as [a|] eqn:E; inversion H; subst.
  - assert (Hv : v = VRef a).
    { destruct v as [| |b|n|n|s|d|a0]; try discriminate E.
      unfold asObject in E. destruct (shape (h a0)); congruence. }
    subst v. split; [set_solver|].
    intros b Hb. apply elem_of_union in Hb as [Hb | Hb]; [|now left].
    apply elem_of_singleton in Hb. subst b. now right.
  - split; [set_solver|]. auto.
Qed.

Lemma tracks_walkItems (h : Heap) (profiler : IProfiler) (xs : list Value) (size : Z) :
  (forall v, tracks_objects h (computeSize profiler v)) ->
  tracks_objects h (walkItems profiler xs size).
Proof.
  intros Hc. apply tracks_forEach. intros x acc.
  apply tracks_bind; [apply Hc | intros; apply tracks_ret].
Qed.

Lemma tracks_walkProps (h : Heap) (profiler : IProfiler) (keep : string -> bool)
    (ps : Props) (size : Z) :
  (forall v, tracks_objects h (computeSize profiler v)) ->
  tracks_objects h (walkProps profiler keep ps size).
Proof.
  intros Hc. apply tracks_forEach. intros x acc.
  destruct (keep (fst x)); [|apply tracks_ret].
  apply tracks_bind; [apply Hc | intros; apply tracks_ret].
Qed.

Ltac tracks :=
  repeat first
    [ apply tracks_ret
    | apply tracks_isVisited
    | apply tracks_markVisited
    | apply tracks_walkItems; [assumption]
    | apply tracks_walkProps; [assumption]
    | match goal with H : forall v, tracks_objects _ (computeSize _ v) |- _ => apply H end
    | match goal with H : forall v, tracks_objects _ (isVisited _ v) |- _ => apply H end
    | match goal with H : forall v, tracks_objects _ (markVisited _ v) |- _ => apply H end
    | apply tracks_forEach; intros
    | apply tracks_bind; [|intros]
    | match goal with |- tracks_objects _ (if ?b then _ else _) => destruct b end
    | match goal with |- tracks_objects _ (match ?x with _ => _ end) => destruct x end ].

Lemma tracks_default_strategies (ov : Overheads) (h : Heap) (profiler : IProfiler)
    (s : ISizeStrategy) (v : Value) :
  (forall v, tracks_objects h (isVisited profiler v)) ->
  (forall v, tracks_objects h (markVisited profiler v)) ->
  (forall v, tracks_objects h (computeSize profiler v)) ->
  In s (default_strategies ov h) ->
  tracks_objects h (sizeOf s v profiler).
Proof.
  intros Hi Hm Hc Hin. unfold default_strategies in Hin. cbn [In] in Hin.
  destruct Hin as [<-|[<-|[<-|[<-|[<-|[<-|[<-|[<-|[<-|[]]]]]]]]]];
    cbn [sizeOf ArrayStrategy RegExpStrategy WeakRefStrategy URLSizeStrategy
         TypedArraySizeStrategy ArrayBufferStrategy DataViewStrategy
         FunctionSizeStrategy DefaultSizeStrategy];
    unfold ArrayStrategy_sizeOf, RegExpStrategy_sizeOf, WeakRefStrategy_sizeOf,
      URLSizeStrategy_sizeOf, TypedArraySizeStrategy_sizeOf,
      FunctionSizeStrategy_sizeOf, DefaultSizeStrategy_sizeOf;
    tracks.
Qed.

Lemma tracks_computeSize (ov : Overheads) (h : Heap) (fuel : nat) (v : Value) :
  tracks_objects h (Profiler_computeSize h fuel (default_strategies ov h) v).
Proof.
  revert v. induction fuel as [|fuel IH]; intros v.
  - intros vis x vis' H. discriminate H.
  - rewrite computeSize_S.
    destruct (List.find (fun s => supports s v) (default_strategies ov h))
      as [s|] eqn:E; [|apply tracks_ret].
    apply List.find_some in E as [Hin _].
    apply (tracks_default_strategies ov h _ s v); [| | |exact Hin]; intros v';
      cbn [isVisited markVisited computeSize].
    + apply tracks_isVisited.
    + apply tracks_markVisited.
    + apply IH.
Qed.

Lemma tracks_computeDetailed (h : Heap) (fuel : nat) (v : Value) :
  tracks_objects h (_computeDetailed h fuel v).
Proof.
  revert v. induction fuel as [|fuel IH]; intros v.
  - intros vis x vis' H. discriminate H.
  - cbn [_computeDetailed]. tracks; apply IH.
Qed.

(** X9. Under the default strategies, and on the detailed path, a call
    only ever adds to the visitation set, and what it adds are addresses
    of values whose [typeof] is ["object"]: no function and no primitive is
    ever recorded. *)
Theorem tracker_only_gains_objects (ov : Overheads) (h : Heap) (fuel : nat)
    (v : Value) (vis : Visited) :
  (forall n vis', Profiler_computeSize h fuel (default_strategies ov h) v vis
                  = Some (n, vis') ->
     vis ⊆ vis' /\ forall b, b ∈ vis' -> b ∈ vis \/ typeof h (VRef b) = TObject) /\
  (forall r vis', _computeDetailed h fuel v vis = Some (r, vis') ->
     vis ⊆ vis' /\ forall b, b ∈ vis' -> b ∈ vis \/ typeof h (VRef b) = TObject).
Proof.
  assert (Hty : forall b, asObject h (VRef b) = Some b -> typeof h (VRef b) = TObject).
  { intros b. unfold asObject, typeof. destruct (shape (h b)); congruence. }
  split.
  - intros n vis' H. destruct (tracks_computeSize ov h fuel v _ _ _ H) as [Hs Ho].
    split; [exact Hs|]. intros b Hb. destruct (Ho b Hb); auto.
  - intros r vis' H. destruct (tracks_computeDetailed h fuel v _ _ _ H) as [Hs Ho].
    split; [exact Hs|]. intros b Hb. destruct (Ho b Hb); auto.
Qed.

(** X10. Once a tracked object has been sized in a call it is in the
    tracker, so every later encounter in the same call - shared
    substructure, or a direct [computeSize] after [sizeOf] - costs the
    reference constant. *)
Theorem first_visit_records_object (ov : Overheads) (h : Heap) (a : addr)
    (fuel : nat) (vis : Visited) (n : Z) (vis' : Visited) :
  tracked_object (h a) ->
  Profiler_computeSize h fuel (default_strategies ov h) (VRef a) vis = Some (n, vis') ->
  a ∈ vis' /\
  forall fuel', Profiler_computeSize h (S fuel') (default_strategies ov h) (VRef a) vis'
                = Some (eMemorySize.REFERENCE, vis').
Proof.
  intros Ht H.
  assert (Hin : a ∈ vis').
  { destruct fuel as [|fuel]; [discriminate H|].
    destruct (decide (a ∈ vis)) as [Hv | Hv].
    - rewrite (computeSize_revisit ov h a fuel vis Ht Hv) in H.
      inversion H; subst. exact Hv.
    - destruct (tracked_find ov h a Ht) as [Hfind Hobj]. destruct Ht as [Hs _].
      rewrite computeSize_S, Hfind in H. cbn [sizeOf DefaultSizeStrategy] in H.
      unfold DefaultSizeStrategy_sizeOf in H.
      assert (Hsub : {[a]} ∪ vis ⊆ vis'); [|set_solver].
      destruct (shape (h a)); try contradiction;
        cbn [isVisited markVisited] in H;
        rewrite bind_run, (isVisited_object h a vis Hobj) in H;
        rewrite bool_decide_eq_false_2 in H by exact Hv;
        rewrite bind_run, (markVisited_object h a vis Hobj) in H;
        match type of H with
        | ?m _ = Some _ =>
            assert (Hm : tracks_objects h m)
              by (tracks; cbn [computeSize]; apply tracks_computeSize)
        end;
        exact (proj1 (Hm _ _ _ H)). }
  split; [exact Hin|].
  intros fuel'. now apply computeSize_revisit.
Qed.

Lemma first_visit_records_object_witness :
  tracked_object (sample_heap2 14%nat) /\
  (14%nat ∈ ({[14%nat]} ∪ ∅ : Visited)) /\
  Profiler_computeSize sample_heap2 1
    (default_strategies sample_overheads sample_heap2) (VRef 14%nat) ({[14%nat]} ∪ ∅)
  = Some (8, {[14%nat]} ∪ ∅).
Proof.
  assert (Ht : tracked_object (sample_heap2 14%nat)) by (split; [exact I|reflexivity]).
  pose proof (first_visit_records_object sample_overheads sample_heap2 14%nat 2%nat ∅
                64 ({[14%nat]} ∪ ∅) Ht eq_refl) as [Hin Hre].
  split; [exact Ht|]. split; [exact Hin|]. exact (Hre 0%nat).
Defined.

(** *** Custom strategies *)

Lemma computeSize_inert_strategy (h : Heap) (s : ISizeStrategy)
    (ss : list ISizeStrategy) (fuel : nat) :
  (forall v, supports s v = false) ->
  Profiler_computeSize h fuel (s :: ss) = Profiler_computeSize h fuel ss.
Proof.
  intros Hs. induction fuel as [|fuel IH]; [reflexivity|].
  apply functional_extensionality. intros v.
  rewrite !computeSize_S. cbn [List.find]. rewrite (Hs v), IH. reflexivity.
Qed.

(** X11. [addStrategy] puts the new strategy in front of all the others:
    a value it supports is sized by it, before any default; and a strategy
    that supports no value changes no result. *)
Theorem addStrategy_precedence (h : Heap) (this : Profiler) (s : ISizeStrategy)
    (fuel : nat) (v : Value) :
  (supports s v = true ->
   Profiler_computeSize h (S fuel) (strategies (Profiler_addStrategy this s)) v
   = sizeOf s v
       (mkIProfiler (Profiler_isVisited h) (Profiler_markVisited h)
          (Profiler_computeSize h fuel (strategies (Profiler_addStrategy this s))))) /\
  ((forall v', supports s v' = false) ->
   Profiler_computeSize h fuel (strategies (Profiler_addStrategy this s)) v
   = Profiler_computeSize h fuel (strategies this) v).
Proof.
  split.
  - intros Hs. rewrite computeSize_S. cbn [Profiler_addStrategy strategies List.find].
    now rewrite Hs.
  - intros Hs. cbn [Profiler_addStrategy strategies].
    now rewrite (computeSize_inert_strategy h s (strategies this) fuel Hs).
Qed.

Lemma addStrategy_precedence_witness :
  supports (MockStrategy sample_heap3) (VRef 0%nat) = true /\
  Profiler_computeSize sample_heap3 1
    (strategies (Profiler_addStrategy
                   (newProfiler sample_overheads sample_heap3 None)
                   (MockStrategy sample_heap3))) (VRef 0%nat) ∅
  = Some (99, ∅).
Proof.
  split; [reflexivity|].
  exact (f_equal (fun m => m ∅)
           (proj1 (addStrategy_precedence sample_heap3
                     (newProfiler sample_overheads sample_heap3 None)
                     (MockStrategy sample_heap3) 0%nat (VRef 0%nat)) eq_refl)).
Defined.

(** *** More on formatting *)







(** *** Reports whose size is the sum of their children *)

Lemma assign_fresh {A : Type} (key : string) (x : A) (o : list (string * A)) :
  ~ In key (map fst o) -> assign key x o = (o ++ [(key, x)])%list.
Proof.
  induction o as [|[k y] o IH]; intros Hfresh; cbn [assign app].
  - reflexivity.
  - cbn [map fst In] in Hfresh.
    destruct (String.eqb k key) eqn:E.
    + apply String.eqb_eq in E. tauto.
    + rewrite IH by tauto. reflexivity.
Qed.

Lemma total_snoc (cs : list (string * IMemoryReport)) (k : string) (c : IMemoryReport) :
  total (cs ++ [(k, c)]) = total cs + size c.
Proof.
  induction cs as [|kc cs IH]; cbn [total app fold_right snd].
  - lia.
  - fold (total (cs ++ [(k, c)])). fold (total cs). lia.
Qed.







Lemma map_loop_sum (h : Heap) (fuel : nat) (entries : list (Value * Value)) :
  List.NoDup (map (fun kv : Value * Value => String_ h (fst kv)) entries) ->
  forall (acc : Acc) vis (acc' : Acc) vis',
    (forall kv k, In kv entries -> In k (map fst (snd acc)) ->
       k <> "key:" ++ String_ h (fst kv) /\ k <> "val:" ++ String_ h (fst kv)) ->
    forEach entries (fun kv (acc : Acc) =>
        bind (_computeDetailed h fuel (fst kv)) (fun keyDetail =>
        bind (_computeDetailed h fuel (snd kv)) (fun valDetail =>
          ret (fst acc + (size keyDetail + size valDetail),
               assign ("val:" ++ String_ h (fst kv)) valDetail
                 (assign ("key:" ++ String_ h (fst kv)) keyDetail (snd acc))))))
      acc vis = Some (acc', vis') ->
    fst acc' - total (snd acc') = fst acc - total (snd acc).
Proof.
  induction entries as [|[k v] entries IH]; intros Hnd acc vis acc' vis' Hfresh H.
  - inversion H; subst. reflexivity.
  - cbn [forEach fst snd] in H. rewrite !bind_run in H.
    destruct (_computeDetailed h fuel k vis) as [[kd vis1]|]; [|discriminate H].
    rewrite bind_run in H.
    destruct (_computeDetailed h fuel v vis1) as [[vd vis2]|]; [|discriminate H].
    cbn [ret] in H. cbn [map fst] in Hnd. apply NoDup_cons_iff in Hnd as [Hx Hnd].
    set (s := String_ h k) in *.
    set (lk := "key:" ++ s) in *. set (lv := "val:" ++ s) in *.
    assert (Hk : assign lk kd (snd acc) = (snd acc ++ [(lk, kd)])%list).
    { apply assign_fresh. intros Hin.
      destruct (Hfresh (k, v) _ (or_introl eq_refl) Hin) as [Hne _]. now apply Hne. }
    rewrite Hk in H.
    assert (Hv : assign lv vd (snd acc ++ [(lk, kd)])
                 = ((snd acc ++ [(lk, kd)]) ++ [(lv, vd)])%list).
    { apply assign_fresh. rewrite map_app, in_app_iff. cbn [map fst In].
      intros [Hin | [Heq | []]].
      - destruct (Hfresh (k, v) _ (or_introl eq_refl) Hin) as [_ Hne]. now apply Hne.
      - discriminate Heq. }
    rewrite Hv in H.
    assert (Hfresh1 : forall kv' k', In kv' entries ->
              In k' (map fst ((snd acc ++ [(lk, kd)]) ++ [(lv, vd)])%list) ->
              k' <> "key:" ++ String_ h (fst kv') /\ k' <> "val:" ++ String_ h (fst kv')).
    { intros kv' k' Hin'. rewrite !map_app, !in_app_iff. cbn [map fst In].
      assert (Hne : String_ h (fst kv') <> s).
      { intros Heq. apply Hx. rewrite <- Heq.
        exact (in_map (fun kv : Value * Value => String_ h (fst kv)) _ _ Hin'). }
      intros [[Hold | [Heq | []]] | [Heq | []]].
      - exact (Hfresh kv' k' (or_intror Hin') Hold).
      - subst k'. unfold lk. split; [|discriminate].
        intros Heq. cbn [append] in Heq. injection Heq as Heq.
        change (s = String_ h (fst kv')) in Heq. congruence.
      - subst k'. unfold lv. split; [discriminate|].
        intros Heq. cbn [append] in Heq. injection Heq as Heq.
        change (s = String_ h (fst kv')) in Heq. congruence. }
    pose proof (IH Hnd (fst acc + (size kd + size vd),
                        ((snd acc ++ [(lk, kd)]) ++ [(lv, vd)])%list)
                  vis2 acc' vis' Hfresh1 H) as Hih.
    cbn [fst snd] in Hih. rewrite Hih, !total_snoc. lia.
Qed.

(** X15. The node of a map whose keys stringify to distinct texts has
    exactly the sum of its children's sizes as its size. *)
Theorem detailed_map_size_is_sum (h : Heap) (fuel : nat) (a : addr)
    (entries : list (Value * Value)) (vis : Visited) (r : IMemoryReport)
    (vis' : Visited) :
  shape (h a) = SMap entries ->
  List.NoDup (map (fun kv : Value * Value => String_ h (fst kv)) entries) ->
  a ∉ vis ->
  _computeDetailed h fuel (VRef a) vis = Some (r, vis') ->
  size r = children_total r.
Proof.
  intros Hs Hnd Hnin H. destruct fuel as [|fuel]; [discriminate H|].
  cbn [_computeDetailed] in H. rewrite Hs in H.
  rewrite bind_run in H. unfold Profiler_isVisited at 1 in H.
  cbn [asObject] in H. rewrite Hs in H.
  rewrite bool_decide_eq_false_2 in H by exact Hnin.
  rewrite bind_run in H. unfold Profiler_markVisited at 1 in H.
  cbn [asObject] in H. rewrite Hs in H. rewrite bind_run in H.
  match type of H with
  | match ?m with _ => _ end = _ => destruct m as [[acc1 vis1]|] eqn:E; [|discriminate H]
  end.
  inversion H; subst. cbn [size children_total children].
  pose proof (map_loop_sum h fuel entries Hnd (0, []) _ acc1 _
                ltac:(intros kv k _ []) E) as Hsum.
  cbn [fst snd total fold_right] in Hsum. fold (total (snd acc1)). lia.
Qed.

(** X16. On the detailed path an object that the tracker already holds is
    reported as a leaf: its type tag, the reference constant as size, and
    no children. *)
Theorem detailed_revisit_is_reference_leaf (h : Heap) (fuel : nat) (a : addr)
    (vis : Visited) :
  typeof h (VRef a) = TObject ->
  a ∈ vis ->
  _computeDetailed h (S fuel) (VRef a) vis
  = Some (mkReport (shapeTag (shape (h a))) eMemorySize.REFERENCE None, vis).
Proof.
  intros Hty Hin. cbn [typeof] in Hty.
  cbn [_computeDetailed classTag].
  destruct (shape (h a)) eqn:Hs; try discriminate Hty;
    rewrite bind_run; unfold Profiler_isVisited at 1; cbn [asObject]; rewrite Hs;
    rewrite bool_decide_eq_true_2 by exact Hin; reflexivity.
Qed.

(** *** Termination on cyclic graphs of objects *)

Lemma computeDetailed_revisit (h : Heap) (fuel : nat) (a : addr) (vis : Visited) :
  typeof h (VRef a) = TObject ->
  a ∈ vis ->
  exists r, _computeDetailed h (S fuel) (VRef a) vis = Some (r, vis).
Proof.
  intros Hty Hin. cbn [typeof] in Hty. cbn [_computeDetailed].
  destruct (shape (h a)) eqn:Hs; try discriminate Hty;
    rewrite bind_run; unfold Profiler_isVisited at 1; cbn [asObject]; rewrite Hs;
    rewrite bool_decide_eq_true_2 by exact Hin; eexists; reflexivity.
Qed.


Lemma forEach_returns {A S : Type} (vis1 : Visited) (P : A -> Prop) (xs : list A)
    (body : A -> S -> M S) :
  Forall P xs ->
  (forall x acc vis, P x -> vis1 ⊆ vis ->
     exists acc' vis', body x acc vis = Some (acc', vis') /\ vis ⊆ vis') ->
  forall acc vis, vis1 ⊆ vis ->
    exists acc' vis', forEach xs body acc vis = Some (acc', vis') /\ vis ⊆ vis'.
Proof.
  intros Hxs Hbody. induction Hxs as [|x xs Hx _ IH]; intros acc vis Hsub.
  - exists acc, vis. split; reflexivity.
  - cbn [forEach]. rewrite bind_run.
    destruct (Hbody x acc vis Hx Hsub) as (acc1 & vis2 & -> & Hsub2).
    destruct (IH acc1 vis2 ltac:(transitivity vis; assumption))
      as (acc' & vis' & Hrun & Hsub').
    exists acc', vis'. split; [exact Hrun|transitivity vis2; assumption].
Qed.

Lemma entriesOf_map_Some (members : list Value) (i : nat) :
  map snd (entriesOf i (map Some members)) = members.
Proof.
  revert i. induction members as [|v vs IH]; intros i; cbn [map entriesOf snd].
  - reflexivity.
  - now rewrite IH.
Qed.

Lemma region_shrinks (U vis vis' : Visited) (a : addr) (fuel : nat) :
  a ∈ U -> a ∉ vis -> {[a]} ∪ vis ⊆ vis' ->
  (base.size (U ∖ vis) < S fuel)%nat -> (base.size (U ∖ vis') < fuel)%nat.
Proof.
  intros HU Hnin Hsub Hlt.
  assert (Hss : U ∖ vis' ⊂ U ∖ vis).
  { split.
    - intros b Hb. apply elem_of_difference in Hb as [HbU Hb].
      apply elem_of_difference. split; [exact HbU|].
      intros Hbv. apply Hb, Hsub, elem_of_union. now right.
    - intros Hback.
      assert (Ha : a ∈ U ∖ vis) by (apply elem_of_difference; split; assumption).
      apply Hback, elem_of_difference in Ha as [_ Ha].
      apply Ha, Hsub, elem_of_union. left. now apply elem_of_singleton. }
  apply subset_size in Hss. lia.
Qed.

Lemma computeDetailed_returns (h : Heap) (U : Visited) :
  function_free_region h U ->
  forall fuel v vis,
    within U v -> (base.size (U ∖ vis) < fuel)%nat ->
    exists r vis', _computeDetailed h fuel v vis = Some (r, vis').
Proof.
  intros Hreg. induction fuel as [|fuel IH]; intros v vis Hv Hlt; [lia|].
  destruct v as [| |b|n|n|s|d|a]; try (cbn [_computeDetailed]; eexists _, _; reflexivity).
  cbn [within] in Hv. destruct (Hreg a Hv) as [Hty Hkids].
  destruct (decide (a ∈ vis)) as [Hin | Hnin].
  { destruct (computeDetailed_revisit h fuel a vis Hty Hin) as [r ->]. eauto. }
  assert (Hrec : forall x vis2, within U x -> {[a]} ∪ vis ⊆ vis2 ->
            exists r vis', _computeDetailed h fuel x vis2 = Some (r, vis') /\ vis2 ⊆ vis').
  { intros x vis2 Hx Hsub.
    destruct (IH x vis2 Hx (region_shrinks U vis vis2 a fuel Hv Hnin Hsub Hlt))
      as (r & vis' & Hrun).
    exists r, vis'. split; [exact Hrun|].
    exact (proj1 (tracks_computeDetailed h fuel x _ _ _ Hrun)). }
  assert (Hwalk : forall ps (acc0 : Acc),
            Forall (within U) (map snd ps) ->
            exists acc' vis',
              forEach ps (fun kv (acc : Acc) =>
                bind (_computeDetailed h fuel (snd kv)) (fun child =>
                  ret (fst acc + (len (fst kv) * eMemorySize.STRING_CHAR + size child),
                       assign (fst kv) child (snd acc)))) acc0 ({[a]} ∪ vis)
              = Some (acc', vis')).
  { intros ps acc0 Hps.
    destruct (forEach_returns ({[a]} ∪ vis) (fun kv => within U (snd kv)) ps
                (fun kv (acc : Acc) =>
                   bind (_computeDetailed h fuel (snd kv)) (fun child =>
                     ret (fst acc + (len (fst kv) * eMemorySize.STRING_CHAR + size child),
                          assign (fst kv) child (snd acc))))
                (proj1 (List.Forall_map snd (within U) ps) Hps)
                ltac:(intros x acc vis2 Hx Hsub; cbv beta; rewrite bind_run;
                      destruct (Hrec (snd x) vis2 Hx Hsub) as (r & vis' & -> & Hs');
                      eexists _, _; split; [reflexivity|exact Hs'])
                acc0 ({[a]} ∪ vis) ltac:(reflexivity))
      as (acc' & vis' & Hrun & _).
    eauto. }
  assert (Hindexed : forall entries,
            Forall (within U) (map snd entries) ->
            exists acc' vis',
              forEach entries (fun (entry : nat * Value) (acc : Acc) =>
                bind (_computeDetailed h fuel (snd entry)) (fun detail =>
                  ret (fst acc + size detail,
                       assign (dec (fst entry)) detail (snd acc)))) (0, [])
                ({[a]} ∪ vis)
              = Some (acc', vis')).
  { intros entries Hes.
    destruct (forEach_returns ({[a]} ∪ vis) (fun e : nat * Value => within U (snd e))
                entries
                (fun (entry : nat * Value) (acc : Acc) =>
                   bind (_computeDetailed h fuel (snd entry)) (fun detail =>
                     ret (fst acc + size detail,
                          assign (dec (fst entry)) detail (snd acc))))
                (proj1 (List.Forall_map snd (within U) entries) Hes)
                ltac:(intros x acc vis2 Hx Hsub; cbv beta; rewrite bind_run;
                      destruct (Hrec (snd x) vis2 Hx Hsub) as (r & vis' & -> & Hs');
                      eexists _, _; split; [reflexivity|exact Hs'])
                (0, []) ({[a]} ∪ vis) ltac:(reflexivity))
      as (acc' & vis' & Hrun & _).
    eauto. }
  cbn [_computeDetailed]. cbn [typeof] in Hty. unfold detailed_children in Hkids.
  destruct (shape (h a)) eqn:Hs; try discriminate Hty;
    rewrite bind_run; unfold Profiler_isVisited at 1; cbn [asObject]; rewrite Hs;
    rewrite bool_decide_eq_false_2 by exact Hnin;
    rewrite bind_run; unfold Profiler_markVisited at 1; cbn [asObject]; rewrite Hs;
    try (eexists _, _; reflexivity);
    try (rewrite bind_run;
         destruct (Hwalk (forIn (h a)) (0, []) Hkids) as (acc' & vis' & ->);
         eexists _, _; reflexivity).
  - (* array *)
    rewrite bind_run. destruct (Hindexed _ Hkids) as (acc' & vis' & ->).
    eexists _, _; reflexivity.
  - (* map *)
    rewrite bind_run.
    destruct (forEach_returns ({[a]} ∪ vis)
                (fun kv : Value * Value => within U (fst kv) /\ within U (snd kv))
                entries
                (fun kv (acc : Acc) =>
                   bind (_computeDetailed h fuel (fst kv)) (fun keyDetail =>
                   bind (_computeDetailed h fuel (snd kv)) (fun valDetail =>
                     ret (fst acc + (size keyDetail + size valDetail),
                          assign ("val:" ++ String_ h (fst kv)) valDetail
                            (assign ("key:" ++ String_ h (fst kv)) keyDetail
                               (snd acc))))))
                ltac:(clear -Hkids; induction entries as [|[k v] es IHes];
                      [constructor|];
                      cbn [flat_map app] in Hkids;
                      apply Forall_cons_iff in Hkids as [Hk Hkids];
                      apply Forall_cons_iff in Hkids as [Hv Hkids];
                      constructor; [split; assumption|now apply IHes])
                ltac:(intros x acc vis2 [Hx1 Hx2] Hsub; cbv beta; rewrite bind_run;
                      destruct (Hrec (fst x) vis2 Hx1 Hsub) as (r1 & vis3 & -> & Hs3);
                      rewrite bind_run;
                      destruct (Hrec (snd x) vis3 Hx2
                                  ltac:(transitivity vis2; assumption))
                        as (r2 & vis4 & -> & Hs4);
                      eexists _, _; split;
                        [reflexivity|transitivity vis3; assumption])
                (0, []) ({[a]} ∪ vis) ltac:(reflexivity))
      as (acc' & vis' & -> & _).
    eexists _, _; reflexivity.
  - (* set *)
    rewrite bind_run.
    destruct (Hindexed (entriesOf 0 (map Some members))
                ltac:(now rewrite entriesOf_map_Some)) as (acc' & vis' & ->).
    eexists _, _; reflexivity.
Qed.

(** X17. On every graph of objects without functions - cyclic or not -
    [computeDetailedSize] returns a report, at a recursion depth of at most
    the number of objects plus one. *)
Theorem computeDetailedSize_terminates (h : Heap) (U : Visited) (this : Profiler)
    (fuel : nat) (v : Value) :
  function_free_region h U ->
  within U v ->
  (base.size U < fuel)%nat ->
  exists report this', Profiler_computeDetailedSize h fuel this v = Some (report, this').
Proof.
  intros Hreg Hv Hlt. unfold Profiler_computeDetailedSize, run.
  destruct (computeDetailed_returns h U Hreg fuel v ∅ Hv) as (r & vis' & ->).
  - assert (Hle : (base.size (U ∖ (∅ : Visited)) <= base.size U)%nat)
      by (apply subseteq_size; intros b Hb;
          now apply elem_of_difference in Hb as [Hb _]).
    lia.
  - eauto.
Qed.

Lemma computeSize_primitive_returns (ov : Overheads) (h : Heap) (fuel : nat)
    (v : Value) (vis : Visited) :
  match v with VRef _ => False | _ => True end ->
  exists n, Profiler_computeSize h (S fuel) (default_strategies ov h) v vis
            = Some (n, vis).
Proof.
  intros Hv. destruct v as [| |b|n|n|s|d|a]; try contradiction;
    try (rewrite computeSize_primitive by exact I; eauto).
  rewrite computeSize_string. eauto.
Qed.

Lemma computeSize_returns (ov : Overheads) (h : Heap) (U : Visited) :
  tracked_region h U ->
  forall fuel v vis,
    within U v -> (base.size (U ∖ vis) < fuel)%nat ->
    exists n vis', Profiler_computeSize h fuel (default_strategies ov h) v vis
                   = Some (n, vis').
Proof.
  intros Hreg. induction fuel as [|fuel IH]; intros v vis Hv Hlt; [lia|].
  destruct v as [| |b|n|n|s|d|a];
    try (match goal with
         | |- exists _ _, Profiler_computeSize _ _ _ ?p _ = _ =>
             destruct (computeSize_primitive_returns ov h fuel p vis I) as [n0 ->]
         end; eauto; fail).
  cbn [within] in Hv. destruct (Hreg a Hv) as [Ht Hkids].
  destruct (decide (a ∈ vis)) as [Hin | Hnin].
  { rewrite (computeSize_revisit ov h a fuel vis Ht Hin). eauto. }
  destruct (tracked_find ov h a Ht) as [Hfind Hobj]. destruct Ht as [Hsh _].
  set (profiler := mkIProfiler (Profiler_isVisited h) (Profiler_markVisited h)
                     (Profiler_computeSize h fuel (default_strategies ov h))).
  assert (Hrec : forall x vis2, within U x -> {[a]} ∪ vis ⊆ vis2 ->
            exists n vis', computeSize profiler x vis2 = Some (n, vis') /\ vis2 ⊆ vis').
  { intros x vis2 Hx Hsub. cbn [computeSize profiler].
    destruct (IH x vis2 Hx (region_shrinks U vis vis2 a fuel Hv Hnin Hsub Hlt))
      as (n & vis' & Hrun).
    exists n, vis'. split; [exact Hrun|].
    exact (proj1 (tracks_computeSize ov h fuel x _ _ _ Hrun)). }
  assert (Hprops : forall ps size0,
            Forall (within U) (map snd ps) ->
            exists n vis', walkProps profiler (fun _ => true) ps size0 ({[a]} ∪ vis)
                           = Some (n, vis')).
  { intros ps size0 Hps. unfold walkProps.
    destruct (forEach_returns ({[a]} ∪ vis) (fun kv => within U (snd kv)) ps
                (fun kv size =>
                   if (fun _ : string => true) (fst kv)
                   then bind (computeSize profiler (snd kv)) (fun c =>
                          ret (size + len (fst kv) * eMemorySize.STRING_CHAR + c))
                   else ret size)
                (proj1 (List.Forall_map snd (within U) ps) Hps)
                ltac:(intros x acc vis2 Hx Hsub; cbv beta iota; rewrite bind_run;
                      destruct (Hrec (snd x) vis2 Hx Hsub) as (n & vis' & -> & Hs');
                      eexists _, _; split; [reflexivity|exact Hs'])
                size0 ({[a]} ∪ vis) ltac:(reflexivity))
      as (n & vis' & Hrun & _).
    eauto. }
  rewrite computeSize_S, Hfind. cbn [sizeOf DefaultSizeStrategy]. fold profiler.
  unfold DefaultSizeStrategy_sizeOf. unfold detailed_children in Hkids.
  destruct (shape (h a)) eqn:Hs; try contradiction;
    cbn [isVisited markVisited profiler];
    rewrite bind_run, (isVisited_object h a vis Hobj);
    rewrite bool_decide_eq_false_2 by exact Hnin;
    rewrite bind_run, (markVisited_object h a vis Hobj);
    fold profiler;
    try (eexists _, _; reflexivity);
    try (destruct (Hprops (forIn (h a)) (DEFAULT_OBJECT ov) Hkids) as (n & vis' & ->);
         eauto; fail).
  - (* map *)
    destruct (forEach_returns ({[a]} ∪ vis)
                (fun kv : Value * Value => within U (fst kv) /\ within U (snd kv))
                entries
                (fun kv size =>
                   bind (computeSize profiler (fst kv)) (fun ck =>
                   bind (computeSize profiler (snd kv)) (fun cv =>
                     ret (size + (ck + cv)))))
                ltac:(clear -Hkids; induction entries as [|[k v] es IHes];
                      [constructor|];
                      cbn [flat_map app] in Hkids;
                      apply Forall_cons_iff in Hkids as [Hk Hkids];
                      apply Forall_cons_iff in Hkids as [Hv Hkids];
                      constructor; [split; assumption|now apply IHes])
                ltac:(intros x acc vis2 [Hx1 Hx2] Hsub; cbv beta; rewrite bind_run;
                      destruct (Hrec (fst x) vis2 Hx1 Hsub) as (r1 & vis3 & -> & Hs3);
                      rewrite bind_run;
                      destruct (Hrec (snd x) vis3 Hx2
                                  ltac:(transitivity vis2; assumption))
                        as (r2 & vis4 & -> & Hs4);
                      eexists _, _; split;
                        [reflexivity|transitivity vis3; assumption])
                (DEFAULT_MAP ov) ({[a]} ∪ vis) ltac:(reflexivity))
      as (n & vis' & Hrun & _).
    eauto.
  - (* set *)
    unfold walkItems.
    destruct (forEach_returns ({[a]} ∪ vis) (within U) members
                (fun item size =>
                   bind (computeSize profiler item) (fun c => ret (size + c)))
                Hkids
                ltac:(intros x acc vis2 Hx Hsub; cbv beta; rewrite bind_run;
                      destruct (Hrec x vis2 Hx Hsub) as (n & vis' & -> & Hs');
                      eexists _, _; split; [reflexivity|exact Hs'])
                (DEFAULT_SET ov) ({[a]} ∪ vis) ltac:(reflexivity))
      as (n & vis' & Hrun & _).
    eauto.
Qed.

(** X18. On every graph of plain objects, maps, sets and dates - cyclic or
    not - [sizeOf] with the default strategies returns a number, at a
    recursion depth of at most the number of objects plus one. *)
Theorem sizeOf_terminates_on_tracked_objects (ov : Overheads) (h : Heap)
    (U : Visited) (fuel : nat) (v : Value) :
  tracked_region h U ->
  within U v ->
  (base.size U < fuel)%nat ->
  exists n, sizeOf_default ov h fuel v = Some n.
Proof.
  intros Hreg Hv Hlt. rewrite sizeOf_default_eq.
  destruct (computeSize_returns ov h U Hreg fuel v ∅ Hv) as (n & vis' & ->).
  - assert (Hle : (base.size (U ∖ (∅ : Visited)) <= base.size U)%nat)
      by (apply subseteq_size; intros b Hb;
          now apply elem_of_difference in Hb as [Hb _]).
    lia.
  - eauto.
Qed.

(** *** The extra properties on the sample values *)

Lemma tracker_only_gains_objects_witness :
  Profiler_computeSize sample_heap2 3
    (default_strategies sample_overheads sample_heap2) (VRef 12%nat) ∅
  = Some (44, {[11%nat]} ∪ ({[12%nat]} ∪ ∅)) /\
  (∅ : Visited) ⊆ {[11%nat]} ∪ ({[12%nat]} ∪ ∅).
Proof.
  assert (Hrun : Profiler_computeSize sample_heap2 3
            (default_strategies sample_overheads sample_heap2) (VRef 12%nat) ∅
          = Some (44, {[11%nat]} ∪ ({[12%nat]} ∪ ∅))) by reflexivity.
  split; [exact Hrun|].
  exact (proj1 (proj1 (tracker_only_gains_objects sample_overheads sample_heap2 3
                         (VRef 12%nat) ∅) 44 _ Hrun)).
Defined.


Lemma detailed_map_size_is_sum_witness :
  shape (sample_heap2 15%nat) = SMap [(VString "key", VNumber 123)] /\
  (15%nat ∉ (∅ : Visited)) /\
  _computeDetailed sample_heap2 2 (VRef 15%nat) ∅
  = Some (mkReport "map" 14
            (Some [("key:key", mkReport "string" 6 None);
                   ("val:key", mkReport "number" 8 None)]), {[15%nat]} ∪ ∅) /\
  14 = 6 + (8 + 0).
Proof.
  assert (Hnin : 15%nat ∉ (∅ : Visited)) by apply not_elem_of_empty.
  assert (Hnd : List.NoDup (map (fun kv : Value * Value => String_ sample_heap2 (fst kv))
                              [(VString "key", VNumber 123)])).
  { repeat constructor; cbn; intuition discriminate. }
  split; [reflexivity|]. split; [exact Hnin|]. split; [reflexivity|].
  exact (detailed_map_size_is_sum sample_heap2 2 15%nat _ ∅ _ _
           eq_refl Hnd Hnin eq_refl).
Defined.

Lemma detailed_revisit_is_reference_leaf_witness :
  typeof sample_heap2 (VRef 17%nat) = TObject /\
  (17%nat ∈ ({[17%nat]} : Visited)) /\
  _computeDetailed sample_heap2 1 (VRef 17%nat) {[17%nat]}
  = Some (mkReport "object" 8 None, {[17%nat]}).
Proof.
  assert (Hin : 17%nat ∈ ({[17%nat]} : Visited))
    by (apply elem_of_singleton_2; reflexivity).
  split; [reflexivity|]. split; [exact Hin|].
  exact (detailed_revisit_is_reference_leaf sample_heap2 0 17%nat _ eq_refl Hin).
Defined.

Lemma sample_region_cases (a : addr) :
  a ∈ sample_region -> a = 17%nat \/ a = 18%nat.
Proof.
  unfold sample_region. intros Ha.
  apply elem_of_union in Ha as [Ha | Ha]; apply elem_of_singleton in Ha; auto.
Defined.

Lemma sample_region_function_free : function_free_region sample_heap2 sample_region.
Proof.
  intros a Ha. destruct (sample_region_cases a Ha) as [-> | ->].
  - split; [reflexivity|].
    change (Forall (within sample_region) [VRef 18%nat]).
    constructor; [|constructor]. cbn [within]. unfold sample_region.
    apply elem_of_union. right. apply elem_of_singleton_2. reflexivity.
  - split; [reflexivity|].
    change (Forall (within sample_region) [VRef 17%nat]).
    constructor; [|constructor]. exact Ha.
Defined.

Lemma sample_region_tracked : tracked_region sample_heap2 sample_region.
Proof.
  intros a Ha. split.
  - destruct (sample_region_cases a Ha) as [-> | ->]; split; [exact I|reflexivity|exact I|reflexivity].
  - exact (proj2 (sample_region_function_free a Ha)).
Defined.

Lemma sample_region_root : within sample_region (VRef 17%nat).
Proof.
  cbn [within]. unfold sample_region.
  apply elem_of_union; left; apply elem_of_singleton_2; reflexivity.
Defined.

Lemma sample_region_size : (base.size sample_region < 3)%nat.
Proof. vm_compute. lia. Defined.

Lemma computeDetailedSize_terminates_witness :
  function_free_region sample_heap2 sample_region /\
  within sample_region (VRef 17%nat) /\
  (base.size sample_region < 3)%nat /\
  exists report this',
    Profiler_computeDetailedSize sample_heap2 3
      (newProfiler sample_overheads sample_heap2 None) (VRef 17%nat)
    = Some (report, this').
Proof.
  split; [exact sample_region_function_free|].
  split; [exact sample_region_root|]. split; [exact sample_region_size|].
  exact (computeDetailedSize_terminates sample_heap2 sample_region _ 3 (VRef 17%nat)
           sample_region_function_free sample_region_root sample_region_size).
Defined.

Lemma sizeOf_terminates_on_tracked_objects_witness :
  tracked_region sample_heap2 sample_region /\
  within sample_region (VRef 17%nat) /\
  (base.size sample_region < 3)%nat /\
  exists n, sizeOf_default sample_overheads sample_heap2 3 (VRef 17%nat) = Some n.
Proof.
  split; [exact sample_region_tracked|].
  split; [exact sample_region_root|]. split; [exact sample_region_size|].
  exact (sizeOf_terminates_on_tracked_objects sample_overheads sample_heap2
           sample_region 3 (VRef 17%nat)
           sample_region_tracked sample_region_root sample_region_size).
Defined.

(** *** The two paths on a flat object *)

Lemma computeDetailed_primitive (h : Heap) (fuel : nat) (v : Value) (vis : Visited) :
  match v with VRef _ => False | _ => True end ->
  exists r, _computeDetailed h (S fuel) v vis = Some (r, vis) /\
            size r = match v with
                     | VNull => eMemorySize.UNDEFINED
                     | _ => primitive_cost v
                     end.
Proof.
  intros Hv. destruct v as [| |b|n|n|s|[d|]|a]; try contradiction;
    cbn [_computeDetailed]; eexists; (split; [reflexivity|]); try reflexivity.
  destruct d; reflexivity.
Qed.

Lemma detailed_walk_primitives (h : Heap) (fuel : nat) (ps : Props) (acc : Acc)
    (vis : Visited) :
  Forall (fun kv => plain_primitive (snd kv)) ps ->
  exists acc',
    forEach ps (fun kv (acc : Acc) =>
      bind (_computeDetailed h (S fuel) (snd kv)) (fun child =>
        ret (fst acc + (len (fst kv) * eMemorySize.STRING_CHAR + size child),
             assign (fst kv) child (snd acc)))) acc vis
    = Some (acc', vis) /\
    fst acc' = fst acc + sum_prop_costs ps
               - (eMemorySize.NULL - eMemorySize.UNDEFINED) * count_null ps.
Proof.
  intros Hps. revert acc.
  induction Hps as [|[k v] ps Hv _ IH]; intros acc;
    cbn [forEach sum_prop_costs count_null fold_right fst snd].
  - exists acc. split; [reflexivity|]. lia.
  - rewrite !bind_run.
    assert (Hprim : match v with VRef _ => False | _ => True end)
      by (destruct v; try exact I; exact Hv).
    destruct (computeDetailed_primitive h fuel v vis Hprim) as (r & -> & Hr).
    cbn [ret].
    destruct (IH (fst acc + (len k * eMemorySize.STRING_CHAR + size r),
                  assign k r (snd acc))) as (acc' & -> & Hacc).
    exists acc'. split; [reflexivity|]. rewrite Hacc. cbn [fst].
    rewrite Hr. fold (sum_prop_costs ps). fold (count_null ps).
    unfold eMemorySize.NULL, eMemorySize.UNDEFINED.
    destruct v; cbn [primitive_cost]; unfold eMemorySize.NULL, eMemorySize.UNDEFINED;
      try lia; contradiction.
Qed.

(** X19. For an unvisited plain object whose property values are
    primitives, the number [sizeOf] returns exceeds the size of the
    detailed report by the generic-object base overhead plus, for every
    property whose value is [null], the difference between the null and
    the undefined constants. *)
Theorem flat_object_scalar_exceeds_detailed (ov : Overheads) (h : Heap) (a : addr)
    (fuel : nat) :
  shape (h a) = SObject ->
  matches_http_scheme (text (h a)) = false ->
  Forall (fun kv => plain_primitive (snd kv)) (props (h a)) ->
  exists d n,
    detailed_then_sizeOf ov h (S (S fuel)) (VRef a) = Some (d, n) /\
    n = d + DEFAULT_OBJECT ov
        + (eMemorySize.NULL - eMemorySize.UNDEFINED) * count_null (props (h a)).
Proof.
  intros Hs Ht Hps.
  assert (Hto : tracked_object (h a)) by (split; [now rewrite Hs|exact Ht]).
  destruct (tracked_find ov h a Hto) as [Hfind Hobj].
  assert (Hnin : a ∉ (∅ : Visited)) by apply not_elem_of_empty.
  rewrite detailed_then_sizeOf_eq.
  (* the detailed path *)
  remember (S fuel) as fuel1 eqn:Hfuel.
  cbn [_computeDetailed]. rewrite Hs.
  rewrite bind_run. unfold Profiler_isVisited at 1. cbn [asObject]. rewrite Hs.
  rewrite bool_decide_eq_false_2 by exact Hnin.
  rewrite bind_run. unfold Profiler_markVisited at 1. cbn [asObject]. rewrite Hs.
  rewrite bind_run. unfold forIn. rewrite Hs. cbv beta zeta. subst fuel1.
  destruct (detailed_walk_primitives h fuel (props (h a)) (0, []) ({[a]} ∪ ∅) Hps)
    as (acc' & -> & Hacc).
  cbn [ret size].
  (* the scalar path *)
  rewrite computeSize_S, Hfind. cbn [sizeOf DefaultSizeStrategy].
  unfold DefaultSizeStrategy_sizeOf. rewrite Hs. cbn [isVisited markVisited].
  rewrite bind_run, (isVisited_object h a ∅ Hobj).
  rewrite bool_decide_eq_false_2 by exact Hnin.
  rewrite bind_run, (markVisited_object h a ∅ Hobj).
  unfold forIn. rewrite Hs.
  rewrite (walkProps_primitives ov h fuel _ _ _ _ Hps), filter_all.
  eexists _, _. split; [reflexivity|]. rewrite Hacc. cbn [fst]. lia.
Qed.

Lemma flat_object_scalar_exceeds_detailed_witness :
  shape (sample_heap2 14%nat) = SObject /\
  matches_http_scheme (text (sample_heap2 14%nat)) = false /\
  exists d n,
    detailed_then_sizeOf sample_overheads sample_heap2 2 (VRef 14%nat) = Some (d, n) /\
    n = d + 16 + 7 * 0.
Proof.
  assert (Hps : Forall (fun kv : string * Value => plain_primitive (snd kv))
                  (props (sample_heap2 14%nat))).
  { repeat constructor. }
  split; [reflexivity|]. split; [reflexivity|].
  exact (flat_object_scalar_exceeds_detailed sample_overheads sample_heap2 14%nat
           0%nat eq_refl eq_refl Hps).
Defined.
